(** * web_file_viewer: the preview / thumbnail subsystem of [app.py]

    A shallow embedding of the Flask handlers [preview], [serve_file],
    [browse] and [serve_thumbnail] together with the helpers [hash_path]
    and [generate_video_thumbnail], the directory page [browse] renders
    and the start-up statement that makes the cache directory.

    - The file system is explicit state: a finite map from canonical
      absolute locations (lists of path components) to nodes.
    - [hashlib.md5] is embedded as the RFC 1321 algorithm on 32-bit words
      kept in [Z] with their wrap-around written out.
    - The external [ffmpeg] process and the [mimetypes] database live
      outside the program; they are fields of an environment record, so
      every theorem holds for every behaviour of the tool and every type
      database.
    - [posixpath.join], [posixpath.normpath], werkzeug's [safe_join] and
      [send_from_directory] are embedded from their library sources.
    - Concurrent requests are threads interleaved over the shared file
      system, cut at the existence test and at the launch of the tool. *)

From Stdlib Require Import ZArith Ascii String Lia.
From stdpp Require Import base numbers option list strings gmap sorting.

Local Open Scope Z_scope.

(** ** hashlib.md5 (RFC 1321) *)

Module MD5.

Definition mask32 (x : Z) : Z := Z.land x 0xffffffff.

Definition add32 (x y : Z) : Z := mask32 (x + y).

Definition not32 (x : Z) : Z := Z.lxor x 0xffffffff.

Definition rotl32 (x c : Z) : Z :=
  mask32 (Z.lor (Z.shiftl x c) (Z.shiftr x (32 - c))).

(** Per-round shift amounts. *)
Definition S_tab : list Z :=
  [ 7; 12; 17; 22;  7; 12; 17; 22;  7; 12; 17; 22;  7; 12; 17; 22;
    5;  9; 14; 20;  5;  9; 14; 20;  5;  9; 14; 20;  5;  9; 14; 20;
    4; 11; 16; 23;  4; 11; 16; 23;  4; 11; 16; 23;  4; 11; 16; 23;
    6; 10; 15; 21;  6; 10; 15; 21;  6; 10; 15; 21;  6; 10; 15; 21 ].

(** [K_tab[i] = floor(2^32 * |sin(i + 1)|)]. *)
Definition K_tab : list Z :=
  [ 0xd76aa478; 0xe8c7b756; 0x242070db; 0xc1bdceee;
    0xf57c0faf; 0x4787c62a; 0xa8304613; 0xfd469501;
    0x698098d8; 0x8b44f7af; 0xffff5bb1; 0x895cd7be;
    0x6b901122; 0xfd987193; 0xa679438e; 0x49b40821;
    0xf61e2562; 0xc040b340; 0x265e5a51; 0xe9b6c7aa;
    0xd62f105d; 0x02441453; 0xd8a1e681; 0xe7d3fbc8;
    0x21e1cde6; 0xc33707d6; 0xf4d50d87; 0x455a14ed;
    0xa9e3e905; 0xfcefa3f8; 0x676f02d9; 0x8d2a4c8a;
    0xfffa3942; 0x8771f681; 0x6d9d6122; 0xfde5380c;
    0xa4beea44; 0x4bdecfa9; 0xf6bb4b60; 0xbebfbc70;
    0x289b7ec6; 0xeaa127fa; 0xd4ef3085; 0x04881d05;
    0xd9d4d039; 0xe6db99e5; 0x1fa27cf8; 0xc4ac5665;
    0xf4292244; 0x432aff97; 0xab9423a7; 0xfc93a039;
    0x655b59c3; 0x8f0ccc92; 0xffeff47d; 0x85845dd1;
    0x6fa87e4f; 0xfe2ce6e0; 0xa3014314; 0x4e0811a1;
    0xf7537e82; 0xbd3af235; 0x2ad7d2bb; 0xeb86d391 ].

(** The four chaining words. *)
Record state := State { sa : Z; sb : Z; sc : Z; sd : Z }.

Definition init : state :=
  State 0x67452301 0xefcdab89 0x98badcfe 0x10325476.

(** Message padding: a single 1 bit, zeros up to 56 mod 64 bytes, then
    the bit length as a 64-bit little-endian integer. *)
Fixpoint le_bytes (n : nat) (x : Z) : list Z :=
  match n with
  | O => []
  | S n' => Z.land x 0xff :: le_bytes n' (Z.shiftr x 8)
  end.

Definition pad (msg : list Z) : list Z :=
  let len := Z.of_nat (length msg) in
  let zeros := Z.to_nat ((55 - len) mod 64) in
  msg ++ [0x80] ++ replicate zeros 0 ++ le_bytes 8 (Z.land (8 * len) 0xffffffffffffffff).

Definition word_of_le (bs : list Z) : Z :=
  foldr (fun b acc => Z.lor b (Z.shiftl acc 8)) 0 bs.

(** Split into [k]-element chunks; [fuel] bounds the number of chunks. *)
Fixpoint chunks {A} (fuel k : nat) (l : list A) : list (list A) :=
  match fuel, l with
  | O, _ | _, [] => []
  | S fuel', _ => take k l :: chunks fuel' k (drop k l)
  end.

Definition words_of_block (blk : list Z) : list Z :=
  word_of_le <$> chunks 16 4 blk.

(** One of the 64 operations of the compression function. *)
Definition round (M : list Z) (st : state) (i : nat) : state :=
  let '(State a b c d) := st in
  let iz := Z.of_nat i in
  let '(f, g) :=
    if (i <? 16)%nat then
      (Z.lor (Z.land b c) (Z.land (not32 b) d), iz)
    else if (i <? 32)%nat then
      (Z.lor (Z.land d b) (Z.land (not32 d) c), (5 * iz + 1) mod 16)
    else if (i <? 48)%nat then
      (Z.lxor (Z.lxor b c) d, (3 * iz + 5) mod 16)
    else
      (Z.lxor c (Z.lor b (not32 d)), (7 * iz) mod 16) in
  let f' := add32 (add32 (add32 f a) (nth i K_tab 0)) (nth (Z.to_nat g) M 0) in
  State d (add32 b (rotl32 f' (nth i S_tab 0))) b c.

Definition compress (st : state) (blk : list Z) : state :=
  let M := words_of_block blk in
  let '(State a b c d) := foldl (round M) st (seq 0 64) in
  State (add32 (sa st) a) (add32 (sb st) b) (add32 (sc st) c) (add32 (sd st) d).

Definition digest (msg : list Z) : list Z :=
  let p := pad msg in
  let '(State a b c d) := foldl compress init (chunks (length p) 64 p) in
  le_bytes 4 a ++ le_bytes 4 b ++ le_bytes 4 c ++ le_bytes 4 d.

Definition hex_digit (n : Z) : ascii :=
  nth (Z.to_nat n) (list_ascii_of_string "0123456789abcdef") "0"%char.

Definition hex_of_byte (b : Z) : list ascii :=
  [hex_digit (Z.shiftr b 4); hex_digit (Z.land b 0xf)].

Definition bytes_of_string (s : string) : list Z :=
  (fun a => Z.of_N (N_of_ascii a)) <$> list_ascii_of_string s.

(** [hashlib.md5(b).hexdigest()] *)
Definition hexdigest (msg : list Z) : string :=
  string_of_list_ascii (mbind hex_of_byte (digest msg)).

End MD5.

(** [hash_path(path)]: the MD5 hex digest of the UTF-8 bytes of [path].
    Strings are sequences of bytes here, so [encode("utf-8")] is the
    identity on them. *)
Definition hash_path (path : string) : string :=
  MD5.hexdigest (MD5.bytes_of_string path).

(** ** Path strings ([posixpath]) *)

Definition sep : ascii := "/"%char.

(** [s.startswith(p)] *)
Fixpoint startswith (p s : string) : bool :=
  match p, s with
  | EmptyString, _ => true
  | String a p', String b s' => (Ascii.eqb a b && startswith p' s')%bool
  | String _ _, EmptyString => false
  end.

(** [s.endswith("/")] *)
Fixpoint endswith_sep (s : string) : bool :=
  match s with
  | EmptyString => false
  | String c EmptyString => Ascii.eqb c sep
  | String _ s' => endswith_sep s'
  end.

(** [s.split("/")]: always at least one component. *)
Fixpoint split_sep (s : string) : list string :=
  match s with
  | EmptyString => [EmptyString]
  | String c s' =>
      if Ascii.eqb c sep then EmptyString :: split_sep s'
      else match split_sep s' with
           | [] => [String c EmptyString]
           | w :: ws => String c w :: ws
           end
  end.

(** [posixpath.join(a, b)] *)
Definition os_path_join (a b : string) : string :=
  if startswith "/" b then b
  else if (String.eqb a "" || endswith_sep a)%bool then a +:+ b
  else a +:+ "/" +:+ b.

(** [posixpath.normpath(path)]: the loop over the components, keeping a
    leading [..] only where nothing can be popped. [initial] tells whether
    the path starts with a slash. *)
Definition normpath_step (initial : bool) (new_comps : list string) (comp : string)
  : list string :=
  if (String.eqb comp "" || String.eqb comp ".")%bool then new_comps
  else if (negb (String.eqb comp "..")
           || (negb initial && bool_decide (new_comps = []))
           || bool_decide (last new_comps = Some ".."%string))%bool
       then new_comps ++ [comp]
       else removelast new_comps.

Definition normpath (path : string) : string :=
  if String.eqb path "" then "."%string
  else
    let initial_slashes : nat :=
      if startswith "/" path then
        if (startswith "//" path && negb (startswith "///" path))%bool then 2%nat
        else 1%nat
      else 0%nat in
    let comps := foldl (normpath_step (negb (Nat.eqb initial_slashes 0))) [] (split_sep path) in
    let joined := String.concat "/" comps in
    let path' := string_of_list_ascii (replicate initial_slashes sep) +:+ joined in
    if String.eqb path' "" then "."%string else path'.

(** ** The file system *)

Inductive node :=
  | Dir
  | File (content : string).

#[global] Instance node_eq_dec : EqDecision node.
Proof. solve_decision. Defined.

(** Locations are canonical: the components from the root down, without
    [.], [..] or empty names. *)
Abbreviation loc := (list string) (only parsing).
Abbreviation FS := (gmap (list string) node) (only parsing).

Definition is_dir_at (fs : FS) (l : loc) : bool :=
  match l with
  | [] => true
  | _ => bool_decide (fs !! l = Some Dir)
  end.

(** Path resolution as the kernel does it (no symbolic links): every
    component is looked up in a directory; [..] at the root stays there. *)
Fixpoint walk (fs : FS) (cur : loc) (comps : list string) : option loc :=
  match comps with
  | [] => Some cur
  | c :: rest =>
      if is_dir_at fs cur then
        if (String.eqb c "" || String.eqb c ".")%bool then walk fs cur rest
        else if String.eqb c ".." then walk fs (removelast cur) rest
        else walk fs (cur ++ [c]) rest
      else None
  end.

Definition resolve (fs : FS) (cwd : loc) (path : string) : option loc :=
  if String.eqb path "" then None
  else walk fs (if startswith "/" path then [] else cwd) (split_sep path).

Definition stat (fs : FS) (cwd : loc) (path : string) : option node :=
  match resolve fs cwd path with
  | Some [] => Some Dir
  | Some l => fs !! l
  | None => None
  end.

Definition os_path_exists (fs : FS) (cwd : loc) (path : string) : bool :=
  match stat fs cwd path with Some _ => true | None => false end.

Definition os_path_isfile (fs : FS) (cwd : loc) (path : string) : bool :=
  match stat fs cwd path with Some (File _) => true | _ => false end.

Definition os_path_isdir (fs : FS) (cwd : loc) (path : string) : bool :=
  match stat fs cwd path with Some Dir => true | _ => false end.

(** What creating or truncating a regular file at [path] does. *)
Definition write_file (fs : FS) (cwd : loc) (path : string) (data : string) : FS :=
  match resolve fs cwd path with
  | Some (c :: l) =>
      match fs !! (c :: l) with
      | Some Dir => fs
      | _ => <[c :: l := File data]> fs
      end
  | _ => fs
  end.

(** ** The world outside the handlers *)

(** The shared mutable state: the file system, and the trace of the
    external commands launched so far (one [argv] per [subprocess.run]). *)
Record World := MkWorld {
  fs : FS;
  log : list (list string)
}.

(** What [subprocess.run(cmd, check=True)] can observe of the child: it
    could not be started, or it ran, left the file system in some state and
    exited with a status (negative for a signal). *)
Inductive proc_outcome :=
  | LaunchFailed
  | Exited (code : Z) (fs' : FS).

(** The environment of one server process. [cwd] is [os.getcwd()] at
    start-up, a canonical location; [guess_type] is the first component of
    [mimetypes.guess_type]; [run_process] is the behaviour of the external
    tool, which may depend on the whole history. *)
Record Env := MkEnv {
  cwd : loc;
  guess_type : string -> option string;
  run_process : World -> list string -> proc_outcome
}.

(** [ROOT_DIR = os.getcwd()] *)
Definition ROOT_DIR (E : Env) : string := "/" +:+ String.concat "/" (cwd E).

Definition THUMBNAIL_DIR : string := "/tmp/web_file_viewer".

(** ** HTTP responses *)

Inductive json :=
  | JNull
  | JString (s : string).

#[global] Instance json_eq_dec : EqDecision json.
Proof. solve_decision. Defined.

(** [jsonify(dict)] with the items in source order, [abort(code)],
    a file stream of [send_file], and the rendered directory page (the
    template itself is not modelled). *)
Inductive response :=
  | Json (body : list (string * json))
  | Abort (code : Z) (description : option string)
  | FileStream (l : loc) (content : string)
  | Listing (dir : string).

Definition dquote : string := String (ascii_of_nat 34) EmptyString.

(** ** The thumbnail generator *)

Definition ffmpeg_cmd (video_path thumb_path : string) : list string :=
  [ "ffmpeg"; "-y"; "-i"; video_path;
    "-ss"; "00:00:02"; "-vframes"; "1";
    "-vf"; "scale=320:-1";
    thumb_path ]%string.

(** [subprocess.run(cmd, ..., check=True)] inside [try]: records the launch,
    installs the file system the child left, and tells whether the call
    returned normally ([true]) or raised ([OSError] when the child cannot
    be started, [CalledProcessError] on a nonzero status). The diagnostic
    printed by the [except] branch goes to the console and is not state. *)
Definition subprocess_run_checked (E : Env) (cmd : list string) (w : World)
  : bool * World :=
  match run_process E w cmd with
  | LaunchFailed => (false, MkWorld (fs w) (log w ++ [cmd]))
  | Exited code fs' => (bool_decide (code = 0), MkWorld fs' (log w ++ [cmd]))
  end.

Definition generate_video_thumbnail (E : Env) (video_path thumb_path : string)
    (w : World) : bool * World :=
  if os_path_exists (fs w) (cwd E) thumb_path then (true, w)
  else
    let cmd := ffmpeg_cmd video_path thumb_path in
    match subprocess_run_checked E cmd w with
    | (true, w') => (true, w')
    | (false, w') => (false, w')
    end.

(** ** The handlers *)

(** [preview()]; [file] is [request.args.get("file")]. *)
Definition preview (E : Env) (file : option string) (w : World) : response * World :=
  match file with
  | None | Some EmptyString =>
      (Abort 400 (Some ("Missing " +:+ dquote +:+ "file" +:+ dquote +:+ " parameter")), w)
  | Some file_path =>
      let abs_path := os_path_join (ROOT_DIR E) file_path in
      if negb (os_path_isfile (fs w) (cwd E) abs_path) then (Abort 404 None, w)
      else
        match guess_type E abs_path with
        | None | Some EmptyString => (Abort 415 None, w)
        | Some mime =>
            if startswith "image/" mime then
              (Json [ ("type", JString "image");
                      ("url", JString ("/" +:+ file_path));
                      ("thumb_url", JString ("/" +:+ file_path)) ]%string, w)
            else if startswith "video/" mime then
              let hashed := hash_path file_path in
              let thumb_filename := hashed +:+ ".jpg" in
              let thumb_path := os_path_join THUMBNAIL_DIR thumb_filename in
              let '(success, w') := generate_video_thumbnail E abs_path thumb_path w in
              if negb success then (Abort 500 (Some "Failed to generate thumbnail"%string), w')
              else
                (Json [ ("type", JString "video");
                        ("url", JString ("/" +:+ file_path));
                        ("thumb_url", JString ("/thumbnail/" +:+ thumb_filename)) ]%string, w')
            else
              (Json [ ("type", JString "file");
                      ("url", JString ("/" +:+ file_path));
                      ("thumb_url", JNull) ]%string, w)
        end
  end.

(** [werkzeug.security.safe_join(directory, path)] on POSIX. *)
Definition safe_join (directory path : string) : option string :=
  let directory := if String.eqb directory "" then "."%string else directory in
  let filename := if String.eqb path "" then path else normpath path in
  if (startswith "/" filename || String.eqb filename ".." || startswith "../" filename)%bool
  then None
  else Some (os_path_join directory filename).

(** [send_from_directory(directory, path)] *)
Definition send_from_directory (E : Env) (directory path : string) (w : World)
  : response :=
  match safe_join directory path with
  | None => Abort 404 None
  | Some path_str =>
      match stat (fs w) (cwd E) path_str, resolve (fs w) (cwd E) path_str with
      | Some (File content), Some l => FileStream l content
      | _, _ => Abort 404 None
      end
  end.

(** [serve_file(path)] *)
Definition serve_file (E : Env) (path : string) (w : World) : response :=
  send_from_directory E (ROOT_DIR E) path w.

(** [browse(path)] *)
Definition browse (E : Env) (path : string) (w : World) : response :=
  let abs_path := os_path_join (ROOT_DIR E) path in
  if negb (os_path_isdir (fs w) (cwd E) abs_path) then
    send_from_directory E (ROOT_DIR E) path w
  else Listing abs_path.

(** [serve_thumbnail(filename)] *)
Definition serve_thumbnail (E : Env) (filename : string) (w : World) : response :=
  send_from_directory E THUMBNAIL_DIR filename w.

(** ** Concurrent requests

    The server answers each request on its own thread; the threads share
    the file system. One request is cut at the places where [preview]
    meets the shared state: the tests at its entry, the [os.path.exists]
    test of [generate_video_thumbnail], the start of the child in
    [subprocess.run] and the exit of the child. While a child runs, the
    other request sees what it has written so far: [during w cmd] is the
    file system a child started in [w] with [cmd] shows until it exits
    ([ffmpeg] opens its output before the frame is complete). What the
    child will leave and its exit status are those of the one
    [subprocess.run] call, and are installed when it exits. *)

Inductive pc :=
  | AtEntry (file : option string)
  | AtExists (file_path abs_path thumb_filename thumb_path : string)
  | AtRun (file_path abs_path thumb_filename thumb_path : string)
  | AtWait (file_path thumb_filename : string) (code : Z) (fs' : gmap (list string) node)
  | Finished (r : response).

Definition video_response (file_path thumb_filename : string) (success : bool)
  : response :=
  if negb success then Abort 500 (Some "Failed to generate thumbnail"%string)
  else
    Json [ ("type", JString "video");
           ("url", JString ("/" +:+ file_path));
           ("thumb_url", JString ("/thumbnail/" +:+ thumb_filename)) ]%string.

Definition thread_step (E : Env)
    (during : World -> list string -> gmap (list string) node)
    (t : pc) (w : World) : pc * World :=
  match t with
  | AtEntry file =>
      match file with
      | None | Some EmptyString =>
          (Finished (Abort 400 (Some ("Missing " +:+ dquote +:+ "file" +:+ dquote +:+ " parameter"))), w)
      | Some file_path =>
          let abs_path := os_path_join (ROOT_DIR E) file_path in
          if negb (os_path_isfile (fs w) (cwd E) abs_path) then (Finished (Abort 404 None), w)
          else
            match guess_type E abs_path with
            | None | Some EmptyString => (Finished (Abort 415 None), w)
            | Some mime =>
                if startswith "image/" mime then
                  (Finished (Json [ ("type", JString "image");
                                    ("url", JString ("/" +:+ file_path));
                                    ("thumb_url", JString ("/" +:+ file_path)) ]%string), w)
                else if startswith "video/" mime then
                  let thumb_filename := hash_path file_path +:+ ".jpg" in
                  (AtExists file_path abs_path thumb_filename
                            (os_path_join THUMBNAIL_DIR thumb_filename), w)
                else
                  (Finished (Json [ ("type", JString "file");
                                    ("url", JString ("/" +:+ file_path));
                                    ("thumb_url", JNull) ]%string), w)
            end
      end
  | AtExists file_path abs_path thumb_filename thumb_path =>
      if os_path_exists (fs w) (cwd E) thumb_path
      then (Finished (video_response file_path thumb_filename true), w)
      else (AtRun file_path abs_path thumb_filename thumb_path, w)
  | AtRun file_path abs_path thumb_filename thumb_path =>
      let cmd := ffmpeg_cmd abs_path thumb_path in
      match run_process E w cmd with
      | LaunchFailed =>
          (Finished (video_response file_path thumb_filename false),
           MkWorld (fs w) (log w ++ [cmd]))
      | Exited code fs' =>
          (AtWait file_path thumb_filename code fs',
           MkWorld (during w cmd) (log w ++ [cmd]))
      end
  | AtWait file_path thumb_filename code fs' =>
      (Finished (video_response file_path thumb_filename (bool_decide (code = 0))),
       MkWorld fs' (log w))
  | Finished r => (Finished r, w)
  end.






(** The commands launched between two worlds. *)
Definition launched (w w' : World) : list (list string) :=
  drop (length (log w)) (log w').

(** ** Containment *)

(** The canonical location a path names lies under the root directory. *)
Definition within_root (E : Env) (w : World) (path : string) : bool :=
  match resolve (fs w) (cwd E) path with
  | Some l => bool_decide (cwd E `prefix_of` l)
  | None => false
  end.

(** [sep in s] *)
Fixpoint has_sep (s : string) : bool :=
  match s with
  | EmptyString => false
  | String c s' => (Ascii.eqb c sep || has_sep s')%bool
  end.

(** A proper file name: not empty, not [.] or [..], and without a slash.
    [os.getcwd()] returns a path made of such names. *)
Definition is_name (c : string) : bool :=
  (negb (String.eqb c "") && negb (String.eqb c ".") && negb (String.eqb c "..")
   && negb (has_sep c))%bool.

(** The [..] components [normpath] keeps are all at the front. *)
Definition dd_inv (comps : list string) : Prop :=
  ".."%string ∈ comps → head comps = Some ".."%string.

(** ** Vocabulary of the statements *)

Definition image_body (file_path : string) : list (string * json) :=
  [ ("type", JString "image");
    ("url", JString ("/" +:+ file_path));
    ("thumb_url", JString ("/" +:+ file_path)) ]%string.

Definition video_body (file_path : string) : list (string * json) :=
  [ ("type", JString "video");
    ("url", JString ("/" +:+ file_path));
    ("thumb_url", JString ("/thumbnail/" +:+ hash_path file_path +:+ ".jpg")) ]%string.

Definition file_body (file_path : string) : list (string * json) :=
  [ ("type", JString "file");
    ("url", JString ("/" +:+ file_path));
    ("thumb_url", JNull) ]%string.

(** The value stored under a key of a JSON object. *)
Definition field (k : string) (body : list (string * json)) : option json :=
  snd <$> find (fun kv => String.eqb (fst kv) k) body.

(** Where [preview] looks for the file and for its thumbnail. *)
Definition abs_path_of (E : Env) (file_path : string) : string :=
  os_path_join (ROOT_DIR E) file_path.

Definition thumb_path_of (file_path : string) : string :=
  os_path_join THUMBNAIL_DIR (hash_path file_path +:+ ".jpg").

(** The content kinds [preview] tells apart, read off the guessed type. *)
Inductive kind := Unknown | Image | Video | Other.

Definition kind_of (mime : option string) : kind :=
  match mime with
  | None | Some EmptyString => Unknown
  | Some m =>
      if startswith "image/" m then Image
      else if startswith "video/" m then Video
      else Other
  end.








(** The name [preview] gives the thumbnail of [file_path], its place in the
    store, and the characters of a hexadecimal digest. *)
Definition thumb_loc (file_path : string) : list string :=
  ["tmp"; "web_file_viewer"; hash_path file_path +:+ ".jpg"]%string.

Definition is_hex_char (c : ascii) : bool :=
  existsb (Ascii.eqb c) (list_ascii_of_string "0123456789abcdef").

(** ** The directory page of [browse] *)

(** [a <= b] on [str]: by code points, a proper prefix first. Strings are
    sequences of UTF-8 bytes here, whose order by bytes is the order by
    code points. *)
Fixpoint str_le (a b : string) : bool :=
  match a, b with
  | EmptyString, _ => true
  | String _ _, EmptyString => false
  | String x a', String y b' =>
      if Ascii.eqb x y then str_le a' b'
      else (N_of_ascii x <? N_of_ascii y)%N
  end.

Definition str_leq : relation string := λ a b, str_le a b = true.

#[global] Instance str_leq_dec : RelDecision str_leq :=
  λ a b, decide (str_le a b = true).

(** [sorted(names)] *)
Definition sorted (names : list string) : list string := merge_sort str_leq names.

(** The name under which [k] is an entry of the directory at [l]. *)
Definition child_name (l k : loc) : option string :=
  match last k with
  | Some n => if bool_decide (k = l ++ [n]) then Some n else None
  | None => None
  end.

Definition children (fs : FS) (l : loc) : list string :=
  omap (λ kv, child_name l (fst kv)) (map_to_list fs).

(** [os.listdir(path)]: the entries of a directory, in the order the
    system enumerates them; [None] where it raises. *)
Definition os_listdir (fs : FS) (cwd : loc) (path : string) : option (list string) :=
  match resolve fs cwd path with
  | Some l => if is_dir_at fs l then Some (children fs l) else None
  | None => None
  end.

(** [posixpath.abspath(path)]; the working directory of the server is the
    one it was started in. *)
Definition os_path_abspath (E : Env) (path : string) : string :=
  if startswith "/" path then normpath path
  else normpath (os_path_join (ROOT_DIR E) path).

(** [len(commonprefix([l1, l2]))] on two lists of components. *)
Fixpoint commonprefix_len (l1 l2 : list string) : nat :=
  match l1, l2 with
  | x :: l1', y :: l2' =>
      if String.eqb x y then S (commonprefix_len l1' l2') else 0%nat
  | _, _ => 0%nat
  end.

(** [posixpath.relpath(path, start)]; [None] is its [ValueError]. *)
Definition os_path_relpath (E : Env) (path start : string) : option string :=
  if String.eqb path "" then None
  else
    let start_list :=
      filter (λ x, x ≠ ""%string) (split_sep (os_path_abspath E start)) in
    let path_list :=
      filter (λ x, x ≠ ""%string) (split_sep (os_path_abspath E path)) in
    let i := commonprefix_len start_list path_list in
    let rel_list :=
      replicate (length start_list - i) ".."%string ++ drop i path_list in
    match rel_list with
    | [] => Some "."%string
    | a :: p => Some (foldl os_path_join a p)
    end.

(** [s.replace(backslash, "/")] *)
Fixpoint replace_backslashes (s : string) : string :=
  match s with
  | EmptyString => EmptyString
  | String c s' =>
      String (if Ascii.eqb c "\"%char then sep else c) (replace_backslashes s')
  end.

(** [p[:p.rfind("/") + 1]] *)
Fixpoint upto_last_sep (p : string) : string :=
  match p with
  | EmptyString => EmptyString
  | String c p' => if has_sep p then String c (upto_last_sep p') else EmptyString
  end.

(** [s == "/" * len(s)] *)
Fixpoint all_sep (s : string) : bool :=
  match s with
  | EmptyString => true
  | String c s' => (Ascii.eqb c sep && all_sep s')%bool
  end.

(** [s.rstrip("/")] *)
Fixpoint rstrip_sep (s : string) : string :=
  match s with
  | EmptyString => EmptyString
  | String c s' => if all_sep s then EmptyString else String c (rstrip_sep s')
  end.

(** [posixpath.dirname(p)] *)
Definition os_path_dirname (p : string) : string :=
  let head := upto_last_sep p in
  if (negb (String.eqb head "") && negb (all_sep head))%bool then rstrip_sep head
  else head.

(** One dictionary of [entries]. *)
Record entry := MkEntry {
  name : string;
  relpath : string;
  is_dir : bool;
  type_ : string
}.

#[global] Instance entry_eq_dec : EqDecision entry.
Proof. solve_decision. Defined.

(** The body of the loop of [browse] for one name. *)
Definition entry_of (E : Env) (w : World) (abs_path name : string) : option entry :=
  let full_path := os_path_join abs_path name in
  match os_path_relpath E full_path (ROOT_DIR E) with
  | None => None
  | Some rel =>
      let rel_path := replace_backslashes rel in
      let is_dir := os_path_isdir (fs w) (cwd E) full_path in
      let mime := guess_type E full_path in
      let type_ :=
        if is_dir then "dir"%string
        else match mime with
             | None | Some EmptyString => "file"%string
             | Some mime =>
                 if startswith "image/" mime then "image"%string
                 else if startswith "video/" mime then "video"%string
                 else "file"%string
             end in
      Some (MkEntry name rel_path is_dir type_)
  end.

(** What the template is rendered with. *)
Record page := MkPage {
  entries : list entry;
  page_relpath : string;
  parent_path : string
}.

(** The directory branch of [browse(path)]: the statements after the
    [os.path.isdir] test; [None] where an exception escapes. *)
Definition browse_page (E : Env) (path : string) (w : World) : option page :=
  let abs_path := os_path_join (ROOT_DIR E) path in
  match os_listdir (fs w) (cwd E) abs_path with
  | None => None
  | Some names =>
      match mapM (entry_of E w abs_path) (sorted names) with
      | None => None
      | Some entries => Some (MkPage entries path (os_path_dirname path))
      end
  end.

(** ** Start-up: [os.makedirs(THUMBNAIL_DIR, exist_ok=True)] *)

(** [posixpath.basename(p)]: [p[p.rfind("/") + 1:]] *)
Fixpoint os_path_basename (p : string) : string :=
  match p with
  | EmptyString => EmptyString
  | String c p' => if has_sep p then os_path_basename p' else p
  end.

(** [posixpath.split(p)] *)
Definition os_path_split (p : string) : string * string :=
  (os_path_dirname p, os_path_basename p).

(** The [OSError]s told apart by [os.makedirs]. *)
Inductive os_error := FileExistsError | OtherOSError.

(** [os.mkdir(path)]: the parent must be a directory and the name free;
    trailing slashes are ignored. The store comes back with the error, if
    any. *)
Definition os_mkdir (fs : FS) (cwd : loc) (path : string) : FS * option os_error :=
  match resolve fs cwd (if all_sep path then path else rstrip_sep path) with
  | Some [] => (fs, Some FileExistsError)
  | Some l =>
      match fs !! l with
      | Some _ => (fs, Some FileExistsError)
      | None => (<[l := Dir]> fs, None)
      end
  | None => (fs, Some OtherOSError)
  end.

(** The last statement of [os.makedirs]: [mkdir], whose error is let go
    when [exist_ok] holds and the name is a directory. *)
Definition mkdir_exist_ok (fs : FS) (cwd : loc) (name : string) (exist_ok : bool)
  : FS * option os_error :=
  match os_mkdir fs cwd name with
  | (fs', None) => (fs', None)
  | (fs', Some e) =>
      if (negb exist_ok || negb (os_path_isdir fs' cwd name))%bool then (fs', Some e)
      else (fs', None)
  end.

(** [os.makedirs(name, exist_ok=exist_ok)]; the recursion is on the head of
    the name, which gets shorter, and [fuel] bounds it. What was created
    before an error stays. *)
Fixpoint os_makedirs (fuel : nat) (fs : FS) (cwd : loc) (name : string)
    (exist_ok : bool) : FS * option os_error :=
  match fuel with
  | O => (fs, Some OtherOSError)
  | S fuel' =>
      let '(head, tail) := os_path_split name in
      let '(head, tail) :=
        if String.eqb tail "" then os_path_split head else (head, tail) in
      if (negb (String.eqb head "") && negb (String.eqb tail "")
          && negb (os_path_exists fs cwd head))%bool
      then
        match os_makedirs fuel' fs cwd head exist_ok with
        | (fs1, Some OtherOSError) => (fs1, Some OtherOSError)
        | (fs1, _) =>
            if String.eqb tail "." then (fs1, None)
            else mkdir_exist_ok fs1 cwd name exist_ok
        end
      else mkdir_exist_ok fs cwd name exist_ok
  end.

(** What importing the module does to the store; [None] where the
    statement raises and the server does not start. *)
Definition startup (E : Env) (fs : FS) : option FS :=
  match os_makedirs (S (String.length THUMBNAIL_DIR)) fs (cwd E) THUMBNAIL_DIR true with
  | (fs', None) => Some fs'
  | (_, Some _) => None
  end.

(** The world after a sequence of [preview] requests, one after the other. *)
Definition preview_requests (E : Env) (files : list (option string)) (w : World)
  : World :=
  foldl (λ w file, snd (preview E file w)) w files.

(** ** A concrete deployment used to run the model *)

Module Sample.

(** A cut-down type database: the text after the last dot of the last
    component, looked up in a four-line table. *)
Fixpoint ext_of (s : string) : option string :=
  match s with
  | EmptyString => None
  | String c s' =>
      match ext_of s' with
      | Some e => Some e
      | None => if Ascii.eqb c "." then Some s' else None
      end
  end.

Definition types_map : list (string * string) :=
  [ ("mp4", "video/mp4"); ("png", "image/png");
    ("jpg", "image/jpeg"); ("txt", "text/plain") ]%string.

Definition guess (path : string) : option string :=
  match last (split_sep path) with
  | Some name =>
      match ext_of name with
      | Some e => snd <$> find (fun kv => String.eqb (fst kv) e) types_map
      | None => None
      end
  | None => None
  end.

Definition root : loc := ["srv"; "www"]%string.

Definition disk : FS :=
  list_to_map
    [ (["srv"], Dir); (["srv"; "www"], Dir);
      (["srv"; "www"; "videos"], Dir);
      (["srv"; "www"; "videos"; "clip.mp4"], File "mp4 data");
      (["srv"; "www"; "pics"], Dir);
      (["srv"; "www"; "pics"; "a.png"], File "png data");
      (["srv"; "www"; "docs"], Dir);
      (["srv"; "www"; "docs"; "readme.txt"], File "text");
      (["srv"; "www"; "docs"; "LICENSE"], File "text");
      (["srv"; "secret.png"], File "private png");
      (["tmp"], Dir); (["tmp"; "web_file_viewer"], Dir) ]%string.

Definition world0 : World := MkWorld disk [].

(** A tool that leaves [out] (if any) at its last argument and exits
    with [code]. *)
Definition tool (out : option string) (code : Z) (w : World) (cmd : list string)
  : proc_outcome :=
  match out, last cmd with
  | Some data, Some dest => Exited code (write_file (fs w) root dest data)
  | _, _ => Exited code (fs w)
  end.

(** The frame is extracted. *)
Definition env_ok : Env := MkEnv root guess (tool (Some "jpeg frame"%string) 0).
(** The tool dies after it has started to write. *)
Definition env_partial : Env := MkEnv root guess (tool (Some "jpe"%string) 1).
(** The tool fails and writes nothing. *)
Definition env_fail : Env := MkEnv root guess (tool None 1).
(** The seek offset is past the end of the clip: no frame, status 0. *)
Definition env_silent : Env := MkEnv root guess (tool None 0).
(** The executable is not installed. *)
Definition env_missing : Env := MkEnv root guess (fun _ _ => LaunchFailed).

Definition clip_key : string := "631533dd92f8f54ea505b59d9920068e".
Definition clip_thumb : string := "/tmp/web_file_viewer/631533dd92f8f54ea505b59d9920068e.jpg".

Definition clip : string := "videos/clip.mp4".
Definition clip_abs : string := "/srv/www/videos/clip.mp4".
Definition clip_cmd : list string := ffmpeg_cmd clip_abs clip_thumb.

(** The world after one request for the clip. *)
Definition after (E : Env) (w : World) : World := snd (preview E (Some clip) w).


End Sample.

(** Pages and stores used by the examples of the directory page. *)
Module Pages.
Import Sample.

(** The page of [docs] on the sample deployment. *)
Definition docs_page : page :=
  MkPage [ MkEntry "LICENSE" "docs/LICENSE" false "file";
           MkEntry "readme.txt" "docs/readme.txt" false "file" ] "docs" "".

Definition readme : entry := MkEntry "readme.txt" "docs/readme.txt" false "file".

(** The sample store with a file whose name contains a backslash, next to
    a directory [a] that holds a file [b.txt]. *)
Definition odd_disk : FS :=
  <[ ["srv"; "www"; "docs"; "a\b.txt"]%string := File "odd name" ]>
    (<[ ["srv"; "www"; "docs"; "a"; "b.txt"]%string := File "another file" ]>
       (<[ ["srv"; "www"; "docs"; "a"]%string := Dir ]> disk)).

Definition odd_world : World := MkWorld odd_disk [].

End Pages.

(** * Properties *)

(** Propositional case analysis for the equivalences below. *)
Ltac iff_cases :=
  repeat split; intros;
  repeat match goal with
         | H : _ ∧ _ |- _ => destruct H
         | H : _ ∨ _ |- _ => destruct H
         | H : ∃ _, _ |- _ => destruct H
         end;
  simplify_eq;
  try solve [ done | left; done | right; repeat eexists; done ].

Ltac run := vm_compute; reflexivity.

(** ** The digest against the RFC 1321 test suite *)

Example md5_empty : hash_path "" = "d41d8cd98f00b204e9800998ecf8427e"%string.
Proof. vm_compute. reflexivity. Qed.

Example md5_abc : hash_path "abc" = "900150983cd24fb0d6963f7d28e17f72"%string.
Proof. vm_compute. reflexivity. Qed.

Example md5_two_blocks :
  hash_path "12345678901234567890123456789012345678901234567890123456789012345678901234567890"
  = "57edf4a22be3c955ac49da2e2107b67a"%string.
Proof. vm_compute. reflexivity. Qed.

(** ** Shape of [preview] *)


Section Preview.

Context (E : Env).

Lemma startswith_video_not_image m :
  startswith "video/" m = true → startswith "image/" m = false.
Proof.
  destruct m as [|c m]; [done|].
  cbn [startswith].
  destruct (Ascii.eqb_spec "v" c) as [<-|]; [done|discriminate].
Qed.

Lemma kind_of_image m : startswith "image/" m = true → kind_of (Some m) = Image.
Proof. destruct m; [done|]. intros H. unfold kind_of. by rewrite H. Qed.

Lemma kind_of_video m : startswith "video/" m = true → kind_of (Some m) = Video.
Proof.
  destruct m; [done|]. intros H. unfold kind_of.
  by rewrite (startswith_video_not_image _ H), H.
Qed.

(** [preview] by cases on what it finds, one equation per exit. *)
Lemma preview_eq file_path w :
  file_path ≠ ""%string →
  preview E (Some file_path) w =
    if negb (os_path_isfile (fs w) (cwd E) (abs_path_of E file_path))
    then (Abort 404 None, w)
    else match kind_of (guess_type E (abs_path_of E file_path)) with
         | Unknown => (Abort 415 None, w)
         | Image => (Json (image_body file_path), w)
         | Video =>
             let '(success, w') :=
               generate_video_thumbnail E (abs_path_of E file_path)
                                        (thumb_path_of file_path) w in
             (if negb success
              then Abort 500 (Some "Failed to generate thumbnail"%string)
              else Json (video_body file_path), w')
         | Other => (Json (file_body file_path), w)
         end.
Proof.
  intros Hne. destruct file_path as [|c p]; [done|].
  unfold preview, abs_path_of, thumb_path_of.
  destruct (negb _); [done|].
  destruct (guess_type E _) as [[|c' m]|]; [done| |done].
  unfold kind_of.
  destruct (startswith "image/" _); [done|].
  destruct (startswith "video/" _); [|done].
  destruct (generate_video_thumbnail _ _ _ _) as [[] w']; done.
Qed.

(** *** Requests that never reach classification *)

(** C8: a request without the [file] parameter (or with an empty one) is
    answered 400, and one whose path is not an existing regular file is
    answered 404; in both cases the world is untouched, whatever the type
    database and the tool would have said. *)
Theorem preview_rejects_before_classifying (file : option string) (w : World) :
  (file = None ∨ file = Some ""%string →
     ∃ msg, preview E file w = (Abort 400 (Some msg), w)) ∧
  (∀ file_path,
     file = Some file_path → file_path ≠ ""%string →
     os_path_isfile (fs w) (cwd E) (os_path_join (ROOT_DIR E) file_path) = false →
     preview E file w = (Abort 404 None, w)).
Proof.
  split.
  - intros [-> | ->]; eexists; reflexivity.
  - intros p -> Hne Hfile. rewrite preview_eq by done.
    unfold abs_path_of. by rewrite Hfile.
Qed.

(** *** Images *)

(** C9: for an existing file whose guessed type starts with [image/],
    [preview] succeeds, the thumbnail URL is the source URL, and the world
    (file system and launched commands) is unchanged. *)
Theorem preview_image (file_path mime : string) (w : World) :
  file_path ≠ ""%string →
  os_path_isfile (fs w) (cwd E) (os_path_join (ROOT_DIR E) file_path) = true →
  guess_type E (os_path_join (ROOT_DIR E) file_path) = Some mime →
  startswith "image/" mime = true →
  ∃ body,
    preview E (Some file_path) w = (Json body, w) ∧
    field "type" body = Some (JString "image") ∧
    field "url" body = Some (JString ("/" +:+ file_path)) ∧
    field "thumb_url" body = field "url" body.
Proof.
  intros Hne Hfile Hmime Himg. exists (image_body file_path).
  rewrite preview_eq by done. unfold abs_path_of.
  rewrite Hfile, Hmime, (kind_of_image _ Himg). done.
Qed.

(** *** Unknown and other types *)

(** C1 (as the code has it): an existing file whose type cannot be guessed
    is answered 415 and nothing changes; an existing file whose type is
    guessed but is neither [image/] nor [video/] gets the descriptor with
    a null thumbnail. *)
Theorem preview_unknown_or_other (file_path : string) (w : World) :
  file_path ≠ ""%string →
  os_path_isfile (fs w) (cwd E) (os_path_join (ROOT_DIR E) file_path) = true →
  (guess_type E (os_path_join (ROOT_DIR E) file_path) = None →
     preview E (Some file_path) w = (Abort 415 None, w)) ∧
  (∀ mime,
     guess_type E (os_path_join (ROOT_DIR E) file_path) = Some mime →
     mime ≠ ""%string →
     startswith "image/" mime = false →
     startswith "video/" mime = false →
     preview E (Some file_path) w =
       (Json [ ("type", JString "file");
               ("url", JString ("/" +:+ file_path));
               ("thumb_url", JNull) ]%string, w)).
Proof.
  intros Hne Hfile. split.
  - intros Hmime. rewrite preview_eq by done. unfold abs_path_of.
    by rewrite Hfile, Hmime.
  - intros mime Hmime Hm Himg Hvid. rewrite preview_eq by done.
    unfold abs_path_of. rewrite Hfile, Hmime.
    destruct mime; [done|]. unfold kind_of. by rewrite Himg, Hvid.
Qed.

(** *** Videos *)

(** C6: for an existing file whose guessed type starts with [video/], the
    generator is called for the destination named by the MD5 of the
    request path, and when it reports success the descriptor is
    [{type: video, url: / + path, thumb_url: /thumbnail/ + key + .jpg}];
    for [videos/clip.mp4] of type [video/mp4] the key is
    [631533dd92f8f54ea505b59d9920068e]. *)
Theorem preview_video (file_path mime : string) (w : World) :
  file_path ≠ ""%string →
  os_path_isfile (fs w) (cwd E) (os_path_join (ROOT_DIR E) file_path) = true →
  guess_type E (os_path_join (ROOT_DIR E) file_path) = Some mime →
  startswith "video/" mime = true →
  fst (generate_video_thumbnail E (os_path_join (ROOT_DIR E) file_path)
         (os_path_join THUMBNAIL_DIR (hash_path file_path +:+ ".jpg")) w) = true →
  preview E (Some file_path) w =
    (Json [ ("type", JString "video");
            ("url", JString ("/" +:+ file_path));
            ("thumb_url", JString ("/thumbnail/" +:+ hash_path file_path +:+ ".jpg")) ]%string,
     snd (generate_video_thumbnail E (os_path_join (ROOT_DIR E) file_path)
            (os_path_join THUMBNAIL_DIR (hash_path file_path +:+ ".jpg")) w)) ∧
  (file_path = "videos/clip.mp4"%string → mime = "video/mp4"%string →
     hash_path file_path = "631533dd92f8f54ea505b59d9920068e"%string ∧
     fst (preview E (Some file_path) w) =
       Json [ ("type", JString "video");
              ("url", JString "/videos/clip.mp4");
              ("thumb_url", JString "/thumbnail/631533dd92f8f54ea505b59d9920068e.jpg") ]%string).
Proof.
  intros Hne Hfile Hmime Hvid Hgen.
  assert (Heq : preview E (Some file_path) w =
    (Json (video_body file_path),
     snd (generate_video_thumbnail E (abs_path_of E file_path)
            (thumb_path_of file_path) w))).
  { rewrite preview_eq by done. unfold abs_path_of, thumb_path_of in *.
    rewrite Hfile, Hmime, (kind_of_video _ Hvid).
    destruct (generate_video_thumbnail _ _ _ _) as [ok w'].
    simpl in Hgen. by subst ok. }
  split; [exact Heq|].
  intros -> _. rewrite Heq. split; vm_compute; reflexivity.
Qed.

(** *** Shape of every successful answer *)

(** C10: whenever [preview] answers with JSON, the object has exactly the
    fields [type], [url] and [thumb_url] (in this order in the source),
    [type] is one of [image], [video], [file], and [url] is the slash
    followed by the [file] parameter as received. *)
Theorem preview_json_shape (file : option string) (w w' : World)
    (body : list (string * json)) :
  preview E file w = (Json body, w') →
  ∃ file_path ty thumb,
    file = Some file_path ∧
    body = [ ("type", JString ty);
             ("url", JString ("/" +:+ file_path));
             ("thumb_url", thumb) ]%string ∧
    (ty = "image" ∨ ty = "video" ∨ ty = "file")%string.
Proof.
  destruct file as [p|]; [|done].
  destruct (decide (p = ""%string)) as [->|Hne]; [done|].
  rewrite preview_eq by done.
  destruct (negb _); [done|].
  destruct (kind_of _); [done| | |].
  - intros [= <- <-]. eexists p, _, _. repeat split. by left.
  - destruct (generate_video_thumbnail _ _ _ _) as [[] w1]; [|done].
    intros [= <- <-]. eexists p, _, _. repeat split. right; by left.
  - intros [= <- <-]. eexists p, _, _. repeat split. right; by right.
Qed.

End Preview.

(** ** The generator and the thumbnail store *)

Section Generator.

Context (E : Env).

(** A cache hit: nothing is launched and nothing changes. *)
Lemma generate_hit video_path thumb_path w :
  os_path_exists (fs w) (cwd E) thumb_path = true →
  generate_video_thumbnail E video_path thumb_path w = (true, w).
Proof. intros H. unfold generate_video_thumbnail. by rewrite H. Qed.

(** A cache miss: exactly one launch; the store is what the tool left. *)
Lemma generate_miss video_path thumb_path w :
  os_path_exists (fs w) (cwd E) thumb_path = false →
  generate_video_thumbnail E video_path thumb_path w =
    match run_process E w (ffmpeg_cmd video_path thumb_path) with
    | LaunchFailed =>
        (false, MkWorld (fs w) (log w ++ [ffmpeg_cmd video_path thumb_path]))
    | Exited code fs' =>
        (bool_decide (code = 0),
         MkWorld fs' (log w ++ [ffmpeg_cmd video_path thumb_path]))
    end.
Proof.
  intros H. unfold generate_video_thumbnail, subprocess_run_checked.
  rewrite H. destruct (run_process _ _ _) as [|code fs']; [done|].
  by destruct (bool_decide _).
Qed.

Lemma launched_same w : launched w w = [].
Proof. unfold launched. by rewrite drop_all. Qed.

Lemma launched_snoc w fs' cmd : launched w (MkWorld fs' (log w ++ [cmd])) = [cmd].
Proof. unfold launched. simpl. by rewrite drop_app_length. Qed.

(** C7 (as the code has it): the generator answers from the existence
    test and the exit status alone. It reports failure exactly when the
    destination was absent and the tool could not be launched or exited
    nonzero; it reports success exactly when the destination was already
    there (nothing launched) or the tool exited zero; and the destination
    exists afterwards exactly when it existed before or the tool left it
    there: the generator does not look. *)
Theorem generate_result_from_exit_status (video_path thumb_path : string) (w : World) :
  let r := generate_video_thumbnail E video_path thumb_path w in
  let hit := os_path_exists (fs w) (cwd E) thumb_path in
  let out := run_process E w (ffmpeg_cmd video_path thumb_path) in
  (fst r = false ↔
     hit = false ∧
     (out = LaunchFailed ∨ ∃ code fs', out = Exited code fs' ∧ code ≠ 0)) ∧
  (fst r = true ↔
     hit = true ∨ (hit = false ∧ ∃ fs', out = Exited 0 fs')) ∧
  (os_path_exists (fs (snd r)) (cwd E) thumb_path = true ↔
     hit = true ∨
     (hit = false ∧ ∃ code fs', out = Exited code fs' ∧
                                os_path_exists fs' (cwd E) thumb_path = true)).
Proof.
  intros r hit out. subst r.
  destruct (os_path_exists (fs w) (cwd E) thumb_path) eqn:Hhit; subst hit.
  - rewrite generate_hit by done. simpl. rewrite Hhit. iff_cases.
  - rewrite generate_miss by done. subst out.
    destruct (run_process _ _ _) as [|code fs']; simpl.
    + rewrite Hhit. iff_cases.
    + case_bool_decide as Hc; iff_cases.
Qed.

(** C2 (as the code has it): on a cache miss for a video, a nonzero exit
    makes [preview] answer 500, and the store is left exactly as the tool
    left it; if the tool left nothing under the key (and the video is
    still there), the next identical request launches the tool again. *)
Theorem preview_video_tool_fails (file_path mime : string) (w : World)
    (code : Z) (fs' : gmap (list string) node) :
  let abs_path := os_path_join (ROOT_DIR E) file_path in
  let thumb_path := os_path_join THUMBNAIL_DIR (hash_path file_path +:+ ".jpg") in
  let w' := MkWorld fs' (log w ++ [ffmpeg_cmd abs_path thumb_path]) in
  file_path ≠ ""%string →
  os_path_isfile (fs w) (cwd E) abs_path = true →
  guess_type E abs_path = Some mime →
  startswith "video/" mime = true →
  os_path_exists (fs w) (cwd E) thumb_path = false →
  run_process E w (ffmpeg_cmd abs_path thumb_path) = Exited code fs' →
  code ≠ 0 →
  preview E (Some file_path) w =
    (Abort 500 (Some "Failed to generate thumbnail"%string), w') ∧
  (os_path_exists fs' (cwd E) thumb_path = false →
   os_path_isfile fs' (cwd E) abs_path = true →
   launched w' (snd (preview E (Some file_path) w')) =
     [ffmpeg_cmd abs_path thumb_path]).
Proof.
  intros abs_path thumb_path w' Hne Hfile Hmime Hvid Hmiss Hrun Hcode.
  split.
  - rewrite preview_eq by done. fold abs_path. unfold abs_path_of, thumb_path_of.
    fold abs_path thumb_path.
    rewrite Hfile, Hmime, (kind_of_video _ Hvid). simpl.
    rewrite generate_miss by done. rewrite Hrun.
    by rewrite bool_decide_eq_false_2.
  - intros Hnone Hstill.
    rewrite preview_eq by done. unfold abs_path_of, thumb_path_of.
    fold abs_path thumb_path. subst w'. cbn [fs].
    rewrite Hstill, Hmime, (kind_of_video _ Hvid). simpl.
    rewrite generate_miss by done. cbn [fs log].
    destruct (run_process E (MkWorld fs' _) _) as [|code2 fs2]; simpl.
    + apply (launched_snoc (MkWorld fs' _)).
    + destruct (bool_decide (code2 = 0)); apply (launched_snoc (MkWorld fs' _)).
Qed.

(** A video request that succeeded and left its thumbnail in the store
    (the video still being there) is answered the same a second time, and
    the second call launches nothing and changes nothing. *)
Lemma preview_video_again (file_path mime : string) (w w1 : World)
    (body : list (string * json)) :
  let abs_path := os_path_join (ROOT_DIR E) file_path in
  let thumb_path := os_path_join THUMBNAIL_DIR (hash_path file_path +:+ ".jpg") in
  file_path ≠ ""%string →
  guess_type E abs_path = Some mime →
  startswith "video/" mime = true →
  preview E (Some file_path) w = (Json body, w1) →
  os_path_isfile (fs w1) (cwd E) abs_path = true →
  os_path_exists (fs w1) (cwd E) thumb_path = true →
  body = video_body file_path ∧
  preview E (Some file_path) w1 = (Json body, w1).
Proof.
  intros abs_path thumb_path Hne Hmime Hvid Hfirst Hstill Hstored.
  assert (Hbody : body = video_body file_path).
  { rewrite preview_eq in Hfirst by done. unfold abs_path_of in Hfirst.
    fold abs_path in Hfirst.
    destruct (negb _); [done|].
    rewrite Hmime, (kind_of_video _ Hvid) in Hfirst.
    destruct (generate_video_thumbnail _ _ _ _) as [[] w2]; [|done].
    by injection Hfirst as <- _. }
  split; [exact Hbody|].
  rewrite preview_eq by done. unfold abs_path_of, thumb_path_of.
  fold abs_path thumb_path.
  rewrite Hstill, Hmime, (kind_of_video _ Hvid). cbn [negb].
  rewrite generate_hit by done. by rewrite Hbody.
Qed.

(** C4 (as the code has it): take a valid video path: an existing file of
    a [video/] type for which the first call succeeds, because its
    thumbnail is in the store already or the tool exits 0, the video
    staying in place. The first call answers with the descriptor, and a
    second call that succeeds answers with the same descriptor, hence the
    same thumbnail URL. Whether the second call launches a process is
    decided by the existence test of the generator alone: if the thumbnail
    file is in the store after the first call, the second call answers the
    same, launches nothing and changes nothing; if it is not (the tool
    exited 0 without leaving it), the second call launches the same command
    again. *)
Theorem preview_video_twice (file_path mime : string) (w : World) :
  let abs_path := os_path_join (ROOT_DIR E) file_path in
  let thumb_path := os_path_join THUMBNAIL_DIR (hash_path file_path +:+ ".jpg") in
  let first := preview E (Some file_path) w in
  let second := preview E (Some file_path) (snd first) in
  let answer :=
    Json [ ("type", JString "video");
           ("url", JString ("/" +:+ file_path));
           ("thumb_url", JString ("/thumbnail/" +:+ hash_path file_path +:+ ".jpg")) ]%string in
  file_path ≠ ""%string →
  os_path_isfile (fs w) (cwd E) abs_path = true →
  guess_type E abs_path = Some mime →
  startswith "video/" mime = true →
  (os_path_exists (fs w) (cwd E) thumb_path = true ∨
   ∃ fs', run_process E w (ffmpeg_cmd abs_path thumb_path) = Exited 0 fs' ∧
          os_path_isfile fs' (cwd E) abs_path = true) →
  fst first = answer ∧
  (∀ body, fst second = Json body → fst second = answer) ∧
  (os_path_exists (fs (snd first)) (cwd E) thumb_path = true →
   fst second = answer ∧
   snd second = snd first ∧
   launched (snd first) (snd second) = [] ∧
   generate_video_thumbnail E abs_path thumb_path (snd first) = (true, snd first)) ∧
  (os_path_exists (fs (snd first)) (cwd E) thumb_path = false →
   launched (snd first) (snd second) = [ffmpeg_cmd abs_path thumb_path]).
Proof.
  intros abs_path thumb_path first second answer Hne Hfile Hmime Hvid Hvalid.
  assert (Hfirst : ∃ w1, first = (Json (video_body file_path), w1) ∧
                         os_path_isfile (fs w1) (cwd E) abs_path = true).
  { subst first. rewrite preview_eq by done. unfold abs_path_of, thumb_path_of.
    fold abs_path thumb_path.
    rewrite Hfile, Hmime, (kind_of_video _ Hvid). cbn [negb].
    destruct (os_path_exists (fs w) (cwd E) thumb_path) eqn:Hhit.
    - rewrite generate_hit by done. by exists w.
    - destruct Hvalid as [|(fs' & Hrun & Hstill)]; [done|].
      rewrite generate_miss by done. rewrite Hrun.
      by eexists (MkWorld fs' _). }
  destruct Hfirst as (w1 & Hfirst & Hstill).
  assert (Hsecond : second =
    let '(success, w') := generate_video_thumbnail E abs_path thumb_path w1 in
    (if negb success then Abort 500 (Some "Failed to generate thumbnail"%string)
     else Json (video_body file_path), w')).
  { subst second. rewrite Hfirst. cbn [snd]. rewrite preview_eq by done.
    unfold abs_path_of, thumb_path_of. fold abs_path thumb_path.
    by rewrite Hstill, Hmime, (kind_of_video _ Hvid). }
  rewrite Hfirst. cbn [fst snd]. split; [reflexivity|]. split; [|split].
  - rewrite Hsecond.
    destruct (generate_video_thumbnail _ _ _ _) as [[] w2]; cbn [negb fst]; [reflexivity|].
    intros body Hb. discriminate.
  - intros Hstored. rewrite Hsecond, generate_hit by done. cbn [negb fst snd].
    split; [reflexivity|]. split; [reflexivity|]. split; [apply launched_same|].
    reflexivity.
  - intros Hgone. rewrite Hsecond, generate_miss by done.
    destruct (run_process E w1 _) as [|code fs2]; [apply launched_snoc|].
    destruct (bool_decide (code = 0)); apply launched_snoc.
Qed.

End Generator.

(** ** Containment of the file-serving handlers *)

Lemma split_sep_nonempty s : split_sep s ≠ [].
Proof.
  destruct s as [|c s]; [done|]. cbn [split_sep].
  destruct (Ascii.eqb c sep); [done|]. by destruct (split_sep s).
Qed.

Lemma split_sep_app_sep a b :
  split_sep (a +:+ "/" +:+ b) = split_sep a ++ split_sep b.
Proof.
  induction a as [|c a IH]; [reflexivity|].
  change (String c a +:+ "/" +:+ b) with (String c (a +:+ "/" +:+ b)).
  cbn [split_sep]. rewrite IH.
  destruct (Ascii.eqb c sep); [reflexivity|].
  pose proof (split_sep_nonempty a). by destruct (split_sep a).
Qed.

Lemma split_sep_no_sep s : has_sep s = false → split_sep s = [s].
Proof.
  induction s as [|c s IH]; [done|]. cbn [has_sep split_sep].
  intros [Hc Hs]%orb_false_iff. rewrite Hc, (IH Hs). done.
Qed.

Lemma split_sep_has_sep s : Forall (λ c, has_sep c = false) (split_sep s).
Proof.
  induction s as [|c s IH]; [by repeat constructor|].
  cbn [split_sep]. destruct (Ascii.eqb c sep) eqn:Hc; [by constructor|].
  pose proof (split_sep_nonempty s).
  destruct (split_sep s) as [|w ws]; [done|].
  inversion IH as [|? ? Hw Hws]; subst. constructor; [|done].
  cbn [has_sep]. by rewrite Hc, Hw.
Qed.

Lemma split_sep_concat comps :
  comps ≠ [] → Forall (λ c, has_sep c = false) comps →
  split_sep (String.concat "/" comps) = comps.
Proof.
  induction comps as [|c comps IH]; [done|]. intros _ Hall.
  inversion Hall as [|? ? Hc Hcs]; subst.
  destruct comps as [|c' comps].
  - by apply split_sep_no_sep.
  - change (String.concat "/" (c :: c' :: comps))
      with (c +:+ "/" +:+ String.concat "/" (c' :: comps)).
    rewrite split_sep_app_sep, IH by done. by rewrite split_sep_no_sep.
Qed.

(** *** Walking down from the root *)
Lemma walk_no_dotdot fs0 cur comps l :
  Forall (λ c, c ≠ ".."%string) comps →
  walk fs0 cur comps = Some l → cur `prefix_of` l.
Proof.
  revert cur. induction comps as [|c comps IH]; intros cur Hall Hw.
  - by injection Hw as ->.
  - inversion Hall as [|? ? Hc Hcs]; subst. cbn [walk] in Hw.
    destruct (is_dir_at fs0 cur); [|done].
    destruct (String.eqb c "" || String.eqb c ".")%bool; [by apply IH|].
    destruct (String.eqb_spec c ".."); [done|].
    etrans; [|by apply IH]. by apply prefix_app_r.
Qed.

Lemma walk_names fs0 cur names rest l :
  forallb is_name names = true →
  walk fs0 cur (names ++ rest) = Some l →
  walk fs0 (cur ++ names) rest = Some l.
Proof.
  revert cur. induction names as [|c names IH]; intros cur Hn Hw.
  - by rewrite (right_id_L [] (++)).
  - cbn [forallb] in Hn. apply andb_true_iff in Hn as [Hc Hn].
    unfold is_name in Hc.
    repeat (apply andb_true_iff in Hc as [Hc ?]).
    cbn [app walk] in Hw.
    destruct (is_dir_at fs0 cur); [|done].
    destruct (String.eqb c ""); [done|].
    destruct (String.eqb c "."); [done|].
    destruct (String.eqb c ".."); [done|].
    cbn [orb] in Hw. apply IH in Hw; [|done].
    by rewrite <- (assoc_L (++)) in Hw.
Qed.

(** *** What [normpath] returns *)
Lemma elem_of_removelast {A} (x : A) (l : list A) : x ∈ removelast l → x ∈ l.
Proof.
  induction l as [|y [|z l] IH]; [done|by intros ?%elem_of_nil|].
  change (removelast (y :: z :: l)) with (y :: removelast (z :: l)).
  rewrite !(elem_of_cons _ x y). intros [->|Hin]; [by left|]. right. by apply IH.
Qed.

Lemma head_removelast {A} (l : list A) :
  removelast l ≠ [] → head (removelast l) = head l.
Proof. by destruct l as [|x [|y l]]. Qed.

Lemma normpath_step_inv comps c :
  has_sep c = false →
  Forall (λ x, has_sep x = false) comps → dd_inv comps →
  Forall (λ x, has_sep x = false) (normpath_step false comps c) ∧
  dd_inv (normpath_step false comps c).
Proof.
  intros Hc Hall Hdd. unfold normpath_step.
  destruct (String.eqb c "" || String.eqb c ".")%bool; [done|].
  assert (Happ : Forall (λ x, has_sep x = false) (comps ++ [c]))
    by (apply Forall_app; split; [done|by repeat constructor]).
  destruct (String.eqb_spec c "..") as [->|Hne]; cbn [negb orb andb].
  - case_bool_decide as Hnil; cbn [orb].
    + subst comps. split; [exact Happ|by intros _].
    + case_bool_decide as Hlast.
      * split; [exact Happ|].
        intros _. destruct comps as [|x xs]; [done|].
        cbn [app head]. 
        assert (Hin : ".."%string ∈ x :: xs).
        { apply last_Some in Hlast as [l' ->].
          apply elem_of_app. right. by apply list_elem_of_singleton. }
        exact (Hdd Hin).
      * split.
        { apply Forall_forall. intros x Hx%elem_of_removelast.
          by eapply Forall_forall in Hall. }
        intros Hin. rewrite head_removelast
          by (intros E; rewrite E in Hin; by apply elem_of_nil in Hin).
        apply Hdd. by apply elem_of_removelast.
  - split; [exact Happ|].
    intros Hin. apply elem_of_app in Hin as [Hin|Hin];
      [|by apply list_elem_of_singleton in Hin].
    destruct comps as [|x xs]; [by apply elem_of_nil in Hin|]. exact (Hdd Hin).
Qed.

Lemma normpath_comps_inv cs comps :
  Forall (λ x, has_sep x = false) cs →
  Forall (λ x, has_sep x = false) comps → dd_inv comps →
  Forall (λ x, has_sep x = false) (foldl (normpath_step false) comps cs) ∧
  dd_inv (foldl (normpath_step false) comps cs).
Proof.
  revert comps. induction cs as [|c cs IH]; intros comps Hcs Hall Hdd; [done|].
  inversion Hcs as [|? ? Hc Hcs']; subst. cbn [foldl].
  destruct (normpath_step_inv comps c Hc Hall Hdd) as [H1 H2]. by apply IH.
Qed.

Lemma startswith_sep_append s t :
  startswith "/" s = true → startswith "/" (s +:+ t) = true.
Proof. by destruct s. Qed.

(** What [safe_join] lets through: a relative name without [..]. *)
Lemma normpath_relative path :
  startswith "/" (normpath path) = false →
  normpath path ≠ ".."%string →
  startswith "../" (normpath path) = false →
  Forall (λ c, c ≠ ".."%string) (split_sep (normpath path)).
Proof.
  unfold normpath.
  destruct (String.eqb path ""); [intros _ _ _; by repeat constructor|].
  destruct (startswith "/" path) eqn:Hs.
  { destruct (startswith "//" path && negb (startswith "///" path))%bool;
      cbn [Nat.eqb negb replicate string_of_list_ascii];
      match goal with |- context [String.eqb ?x ""] => destruct (String.eqb x "") eqn:? end;
      try done. }
  cbn [Nat.eqb negb replicate string_of_list_ascii].
  set (comps := foldl (normpath_step false) [] (split_sep path)).
  change (EmptyString +:+ String.concat "/" comps) with (String.concat "/" comps).
  destruct (normpath_comps_inv (split_sep path) [] (split_sep_has_sep path)
              ltac:(constructor) ltac:(by intros ?%elem_of_nil)) as [Hall Hdd].
  fold comps in Hall, Hdd.
  destruct (String.eqb_spec (String.concat "/" comps) "") as [E|E];
    [intros _ _ _; by repeat constructor|].
  intros _ Hne Hpre.
  destruct comps as [|c0 rest] eqn:Hc; [done|].
  rewrite <- Hc in *. rewrite split_sep_concat by (done || by rewrite Hc).
  apply Forall_forall. intros x Hx ->. specialize (Hdd Hx).
  rewrite Hc in Hdd, Hne, Hpre. injection Hdd as ->.
  destruct rest as [|c1 rest]; [done|].
  by change (String.concat "/" (".." :: c1 :: rest))
      with ("../" +:+ String.concat "/" (c1 :: rest)) in Hpre.
Qed.

(** *** The root as a string *)
Lemma endswith_has_sep s : endswith_sep s = true → has_sep s = true.
Proof.
  induction s as [|c s IH]; [done|]. cbn [endswith_sep has_sep].
  destruct s as [|c' s'].
  - intros ->. done.
  - intros H. rewrite (IH H). by destruct (Ascii.eqb c sep).
Qed.

Lemma endswith_sep_append a b :
  b ≠ ""%string → endswith_sep (a +:+ b) = endswith_sep b.
Proof.
  intros Hb. induction a as [|c a IH]; [done|].
  change (String c a +:+ b) with (String c (a +:+ b)).
  cbn [endswith_sep]. destruct (a +:+ b) eqn:Hab; [|done].
  destruct a; [by subst|done].
Qed.

Lemma concat_names_nonempty c names :
  c ≠ ""%string → String.concat "/" (c :: names) ≠ ""%string.
Proof. destruct c; [done|]. intros _. by destruct names. Qed.

Lemma is_name_spec c :
  is_name c = true →
  c ≠ ""%string ∧ c ≠ "."%string ∧ c ≠ ".."%string ∧ has_sep c = false.
Proof.
  unfold is_name. rewrite !andb_true_iff, !negb_true_iff.
  intros [[[H1 H2] H3] H4]. repeat split; try done.
  all: intros ->; done.
Qed.

Lemma endswith_sep_concat names :
  names ≠ [] → forallb is_name names = true →
  endswith_sep (String.concat "/" names) = false.
Proof.
  induction names as [|c names IH]; [done|]. intros _ Hn.
  cbn [forallb] in Hn. apply andb_true_iff in Hn as [Hc Hn].
  apply is_name_spec in Hc as (Hc & _ & _ & Hs).
  destruct names as [|c' names].
  - cbn [String.concat]. destruct (endswith_sep c) eqn:He; [|done].
    apply endswith_has_sep in He. congruence.
  - change (String.concat "/" (c :: c' :: names))
      with (c +:+ "/" +:+ String.concat "/" (c' :: names)).
    assert (Hc' : c' ≠ ""%string).
    { cbn [forallb] in Hn. apply andb_true_iff in Hn as [Hc' _].
      by apply is_name_spec in Hc' as (? & _). }
    pose proof (concat_names_nonempty c' names Hc') as Hne.
    rewrite endswith_sep_append by done.
    change ("/" +:+ String.concat "/" (c' :: names))
      with (String sep (String.concat "/" (c' :: names))).
    cbn [endswith_sep]. destruct (String.concat "/" (c' :: names)) eqn:E; [done|].
    by apply IH.
Qed.

Lemma forallb_is_name_has_sep names :
  forallb is_name names = true → Forall (λ c, has_sep c = false) names.
Proof.
  induction names as [|c names IH]; [constructor|]. cbn [forallb].
  intros [Hc Hn]%andb_true_iff. constructor; [|by apply IH].
  by apply is_name_spec in Hc as (_ & _ & _ & ?).
Qed.

(** Resolving a relative name without [..] under the root stays there. *)
Lemma resolve_under_root (E : Env) fs0 filename l :
  forallb is_name (cwd E) = true →
  startswith "/" filename = false →
  Forall (λ c, c ≠ ".."%string) (split_sep filename) →
  resolve fs0 (cwd E) (os_path_join (ROOT_DIR E) filename) = Some l →
  cwd E `prefix_of` l.
Proof.
  intros Hwf Hrel Hdd. unfold os_path_join. rewrite Hrel.
  destruct (cwd E) as [|c names] eqn:Hcwd; [intros _; apply prefix_nil|].
  unfold ROOT_DIR. rewrite Hcwd.
  change ("/" +:+ String.concat "/" (c :: names))
    with (String sep (String.concat "/" (c :: names))).
  cbn [String.eqb orb].
  assert (Hc : c ≠ ""%string).
  { cbn [forallb] in Hwf. apply andb_true_iff in Hwf as [Hc _].
    by apply is_name_spec in Hc as (? & _). }
  pose proof (concat_names_nonempty c names Hc) as Hne.
  replace (endswith_sep (String sep (String.concat "/" (c :: names)))) with false.
  2:{ cbn [endswith_sep]. destruct (String.concat "/" (c :: names)) eqn:Hcat; [done|].
      rewrite <- Hcat. symmetry. by apply endswith_sep_concat. }
  unfold resolve.
  change (String sep (String.concat "/" (c :: names)) +:+ "/" +:+ filename)
    with (String sep (String.concat "/" (c :: names) +:+ "/" +:+ filename)).
  cbn [String.eqb startswith Ascii.eqb]. 
  change (startswith "/" (String sep (String.concat "/" (c :: names) +:+ "/" +:+ filename)))
    with true.
  cbn [split_sep]. change (Ascii.eqb sep sep) with true. cbn iota.
  rewrite split_sep_app_sep, split_sep_concat
    by (done || by apply forallb_is_name_has_sep).
  cbn [walk is_dir_at String.eqb orb]. intros Hw.
  apply walk_names in Hw; [|done]. cbn [app] in Hw.
  by apply walk_no_dotdot in Hw.
Qed.

Lemma safe_join_root (E : Env) path s :
  safe_join (ROOT_DIR E) path = Some s →
  ∃ filename, s = os_path_join (ROOT_DIR E) filename ∧
              startswith "/" filename = false ∧
              Forall (λ c, c ≠ ".."%string) (split_sep filename).
Proof.
  unfold safe_join.
  change (String.eqb (ROOT_DIR E) "") with false. cbn iota.
  set (filename := if String.eqb path "" then path else normpath path).
  destruct (startswith "/" filename) eqn:Habs; [done|].
  destruct (String.eqb_spec filename "..") as [|Hne]; [done|].
  destruct (startswith "../" filename) eqn:Hup; [done|].
  intros [= <-]. exists filename. split; [done|]. split; [done|].
  subst filename. destruct (String.eqb path "") eqn:Hp.
  - apply String.eqb_eq in Hp. subst path. by repeat constructor.
  - by apply normpath_relative.
Qed.

(** Whatever [send_from_directory] streams from the root is a regular
    file located under the root. *)
Lemma send_from_directory_within_root (E : Env) (w : World) path l content :
  forallb is_name (cwd E) = true →
  send_from_directory E (ROOT_DIR E) path w = FileStream l content →
  cwd E `prefix_of` l ∧ fs w !! l = Some (File content).
Proof.
  intros Hwf. unfold send_from_directory.
  destruct (safe_join (ROOT_DIR E) path) as [s|] eqn:Hs; [|done].
  unfold stat.
  destruct (resolve (fs w) (cwd E) s) as [l'|] eqn:Hr; [|done].
  destruct l' as [|c l']; [done|].
  destruct (fs w !! (c :: l')) as [[|content']|] eqn:Hst; try done.
  intros [= <- <-].
  apply safe_join_root in Hs as (filename & -> & Hrel & Hdd).
  split; [by eapply resolve_under_root|done].
Qed.

(** The file-serving handlers answer 404 or stream a regular file located
    under the root. *)
Lemma file_serving_within_root (E : Env) (w : World) path l content :
  forallb is_name (cwd E) = true →
  serve_file E path w = FileStream l content ∨
  browse E path w = FileStream l content →
  cwd E `prefix_of` l ∧ fs w !! l = Some (File content).
Proof.
  intros Hwf [H|H].
  - by apply (send_from_directory_within_root E w path).
  - unfold browse in H. destruct (negb _); [|done].
    by apply (send_from_directory_within_root E w path).
Qed.


(** ** The digest as a file name *)

Lemma hex_digit_is_hex n : is_hex_char (MD5.hex_digit n) = true.
Proof.
  unfold MD5.hex_digit. generalize (Z.to_nat n). intros k.
  do 16 (destruct k as [|k]; [reflexivity|]). by destruct k.
Qed.

Lemma le_bytes_length n x : length (MD5.le_bytes n x) = n.
Proof. revert x. induction n as [|n IH]; intros x; [done|]. cbn. by rewrite IH. Qed.

Lemma digest_length msg : length (MD5.digest msg) = 16%nat.
Proof.
  unfold MD5.digest. destruct (foldl _ _ _) as [a b c d].
  by rewrite !length_app, !le_bytes_length.
Qed.

Lemma hex_of_bytes_length bs : length (mbind MD5.hex_of_byte bs) = (2 * length bs)%nat.
Proof. induction bs as [|b bs IH]; [done|]. cbn. rewrite IH. lia. Qed.

Lemma hex_of_bytes_hex bs :
  Forall (λ c, is_hex_char c = true) (mbind MD5.hex_of_byte bs).
Proof.
  induction bs as [|b bs IH]; [constructor|]. cbn.
  repeat constructor; try apply hex_digit_is_hex. exact IH.
Qed.

Lemma string_of_list_ascii_length l :
  String.length (string_of_list_ascii l) = length l.
Proof. induction l as [|c l IH]; [done|]. cbn. by rewrite IH. Qed.

(** Whatever the path, its key is 32 characters out of [0-9a-f]. *)
Lemma hash_path_shape (path : string) :
  String.length (hash_path path) = 32%nat ∧
  Forall (λ c, is_hex_char c = true) (list_ascii_of_string (hash_path path)).
Proof.
  unfold hash_path, MD5.hexdigest. split.
  - by rewrite string_of_list_ascii_length, hex_of_bytes_length, digest_length.
  - rewrite list_ascii_of_string_of_list_ascii. apply hex_of_bytes_hex.
Qed.

Lemma has_sep_append a b : has_sep (a +:+ b) = (has_sep a || has_sep b)%bool.
Proof.
  induction a as [|c a IH]; [done|].
  change (String c a +:+ b) with (String c (a +:+ b)). cbn [has_sep].
  rewrite IH. by rewrite orb_assoc.
Qed.

Lemma string_length_append a b :
  String.length (a +:+ b) = (String.length a + String.length b)%nat.
Proof.
  induction a as [|c a IH]; [done|].
  change (String c a +:+ b) with (String c (a +:+ b)). cbn. by rewrite IH.
Qed.

Lemma hex_has_no_sep s :
  Forall (λ c, is_hex_char c = true) (list_ascii_of_string s) → has_sep s = false.
Proof.
  induction s as [|c s IH]; [done|]. cbn [list_ascii_of_string has_sep].
  intros H. inversion H as [|? ? Hc Hs]; subst. rewrite (IH Hs).
  destruct (Ascii.eqb_spec c sep) as [->|]; [discriminate|done].
Qed.

Lemma thumb_name_is_name file_path : is_name (hash_path file_path +:+ ".jpg") = true.
Proof.
  destruct (hash_path_shape file_path) as [Hlen Hhex].
  assert (Hl : String.length (hash_path file_path +:+ ".jpg") = 36%nat)
    by (rewrite string_length_append, Hlen; reflexivity).
  unfold is_name. rewrite has_sep_append, (hex_has_no_sep _ Hhex).
  destruct (String.eqb_spec (hash_path file_path +:+ ".jpg") "") as [E|_];
    [rewrite E in Hl; discriminate|].
  destruct (String.eqb_spec (hash_path file_path +:+ ".jpg") ".") as [E|_];
    [rewrite E in Hl; discriminate|].
  destruct (String.eqb_spec (hash_path file_path +:+ ".jpg") "..") as [E|_];
    [rewrite E in Hl; discriminate|].
  reflexivity.
Qed.

Lemma name_not_absolute c : is_name c = true → startswith "/" c = false.
Proof.
  intros (Hne & _ & _ & Hs)%is_name_spec. destruct c as [|a c]; [done|].
  cbn [has_sep] in Hs. apply orb_false_iff in Hs as [Ha _].
  cbn [startswith]. rewrite Ascii.eqb_sym. fold sep. by rewrite Ha.
Qed.

Lemma thumb_path_eq file_path :
  thumb_path_of file_path = THUMBNAIL_DIR +:+ "/" +:+ hash_path file_path +:+ ".jpg".
Proof.
  unfold thumb_path_of, os_path_join.
  by rewrite (name_not_absolute _ (thumb_name_is_name file_path)).
Qed.

Lemma thumb_path_split file_path :
  split_sep (thumb_path_of file_path) =
    [""; "tmp"; "web_file_viewer"; hash_path file_path +:+ ".jpg"]%string.
Proof.
  rewrite thumb_path_eq, split_sep_app_sep.
  pose proof (thumb_name_is_name file_path) as (_ & _ & _ & Hs)%is_name_spec.
  by rewrite (split_sep_no_sep _ Hs).
Qed.

(** The thumbnail of a path is looked for in one place. *)
Lemma resolve_thumb_path fs0 cwd0 file_path :
  resolve fs0 cwd0 (thumb_path_of file_path) =
    if (is_dir_at fs0 ["tmp"%string] && is_dir_at fs0 ["tmp"; "web_file_viewer"]%string)%bool
    then Some (thumb_loc file_path) else None.
Proof.
  unfold resolve. rewrite thumb_path_split. rewrite thumb_path_eq.
  change (THUMBNAIL_DIR +:+ "/" +:+ hash_path file_path +:+ ".jpg")
    with (String "/" ("tmp/web_file_viewer" +:+ "/" +:+ hash_path file_path +:+ ".jpg")).
  cbn [String.eqb startswith Ascii.eqb Bool.eqb andb].
  pose proof (thumb_name_is_name file_path) as (H1 & H2 & H3 & _)%is_name_spec.
  cbn [walk is_dir_at String.eqb Ascii.eqb Bool.eqb orb andb app].
  destruct (bool_decide (fs0 !! ["tmp"%string] = Some Dir)); [|reflexivity].
  destruct (bool_decide (fs0 !! ["tmp"; "web_file_viewer"]%string = Some Dir));
    [|reflexivity].
  cbn [andb].
  rewrite (proj2 (String.eqb_neq _ "")), (proj2 (String.eqb_neq _ ".")),
    (proj2 (String.eqb_neq _ "..")) by assumption.
  reflexivity.
Qed.

Lemma isdir_thumbnail_dir fs0 cwd0 :
  os_path_isdir fs0 cwd0 THUMBNAIL_DIR =
    (is_dir_at fs0 ["tmp"%string] && is_dir_at fs0 ["tmp"; "web_file_viewer"]%string)%bool.
Proof.
  unfold os_path_isdir, stat, resolve.
  change (String.eqb THUMBNAIL_DIR "") with false.
  change (startswith "/" THUMBNAIL_DIR) with true.
  change (split_sep THUMBNAIL_DIR) with [""; "tmp"; "web_file_viewer"]%string.
  cbn [walk is_dir_at String.eqb Ascii.eqb Bool.eqb orb andb app].
  destruct (bool_decide (fs0 !! ["tmp"%string] = Some Dir)); [|reflexivity].
  cbn [andb]. case_bool_decide as H; [by rewrite H|].
  destruct (fs0 !! ["tmp"; "web_file_viewer"]%string) as [[|c]|]; congruence.
Qed.

(** ** Writing a regular file *)

Lemma write_file_is_dir_at fs0 cwd0 path data x :
  is_dir_at (write_file fs0 cwd0 path data) x = is_dir_at fs0 x.
Proof.
  unfold write_file.
  destruct (resolve fs0 cwd0 path) as [[|c l]|]; [reflexivity| |reflexivity].
  destruct (fs0 !! (c :: l)) as [n|] eqn:Hn.
  - destruct n as [|content]; [reflexivity|].
    destruct x as [|a x]; [reflexivity|]. cbn [is_dir_at].
    destruct (decide (c :: l = a :: x)) as [Heq|Hneq].
    + rewrite <- Heq, lookup_insert_eq, Hn.
      rewrite !bool_decide_eq_false_2; congruence.
    + by rewrite lookup_insert_ne.
  - destruct x as [|a x]; [reflexivity|]. cbn [is_dir_at].
    destruct (decide (c :: l = a :: x)) as [Heq|Hneq].
    + rewrite <- Heq, lookup_insert_eq, Hn.
      rewrite !bool_decide_eq_false_2; congruence.
    + by rewrite lookup_insert_ne.
Qed.

Lemma walk_ext fs1 fs2 :
  (∀ x, is_dir_at fs1 x = is_dir_at fs2 x) →
  ∀ comps cur, walk fs1 cur comps = walk fs2 cur comps.
Proof.
  intros Hd comps. induction comps as [|c comps IH]; intros cur; [reflexivity|].
  cbn [walk]. rewrite Hd. destruct (is_dir_at fs2 cur); [|reflexivity].
  destruct (_ || _)%bool; [apply IH|]. destruct (String.eqb c ".."); apply IH.
Qed.

Lemma resolve_ext fs1 fs2 cwd0 path :
  (∀ x, is_dir_at fs1 x = is_dir_at fs2 x) →
  resolve fs1 cwd0 path = resolve fs2 cwd0 path.
Proof.
  intros Hd. unfold resolve. destruct (String.eqb path ""); [reflexivity|].
  by apply walk_ext.
Qed.


(** Where no directory is in the way, the file written is the file read. *)
Lemma write_file_stat fs0 cwd0 path data c l :
  resolve fs0 cwd0 path = Some (c :: l) →
  is_dir_at fs0 (c :: l) = false →
  stat (write_file fs0 cwd0 path data) cwd0 path = Some (File data).
Proof.
  intros Hr Hd. unfold stat.
  rewrite (resolve_ext _ fs0 cwd0 path (write_file_is_dir_at fs0 cwd0 path data)), Hr.
  unfold write_file. rewrite Hr. cbn [is_dir_at] in Hd.
  apply bool_decide_eq_false in Hd.
  destruct (fs0 !! (c :: l)) as [[|content]|] eqn:Hn; [done| |];
    by rewrite lookup_insert_eq.
Qed.

(** ** Two requests at once *)

Section Concurrency.

Context (E : Env) (during : World → list string → gmap (list string) node).

(** A thread left alone computes [preview]. *)
Lemma thread_alone file w :
  let '(t1, w1) := thread_step E during (AtEntry file) w in
  let '(t2, w2) := thread_step E during t1 w1 in
  let '(t3, w3) := thread_step E during t2 w2 in
  let '(t4, w4) := thread_step E during t3 w3 in
  (t4, w4) = (Finished (fst (preview E file w)), snd (preview E file w)).
Proof.
  destruct file as [[|c p]|]; [reflexivity| |reflexivity].
  unfold preview. cbn [thread_step].
  destruct (negb _); [reflexivity|].
  destruct (guess_type E _) as [[|c' m]|]; [reflexivity| |reflexivity].
  destruct (startswith "image/" _); [reflexivity|].
  destruct (startswith "video/" _); [|reflexivity].
  cbn [thread_step]. unfold generate_video_thumbnail.
  destruct (os_path_exists _ _ _); [reflexivity|].
  cbn [thread_step]. unfold subprocess_run_checked.
  destruct (run_process E w _) as [|code fs']; [reflexivity|].
  cbn [thread_step log]. by destruct (bool_decide (code = 0)).
Qed.



Context (file_path mime : string) (w0 : World).

Let abs_path := abs_path_of E file_path.
Let thumb_path := thumb_path_of file_path.
Let cmd := ffmpeg_cmd abs_path thumb_path.

Hypothesis Hne : file_path ≠ ""%string.
Hypothesis Hfile : os_path_isfile (fs w0) (cwd E) abs_path = true.
Hypothesis Hmime : guess_type E abs_path = Some mime.
Hypothesis Hvid : startswith "video/" mime = true.
Hypothesis Hmiss : os_path_exists (fs w0) (cwd E) thumb_path = false.








(** *** When the tool does its work *)

Context (part frame : string).

Hypothesis Hdir : os_path_isdir (fs w0) (cwd E) THUMBNAIL_DIR = true.
Hypothesis Htool :
  ∀ w, run_process E w cmd = Exited 0 (write_file (fs w) (cwd E) thumb_path frame).
Hypothesis Hduring :
  ∀ w, during w cmd = write_file (fs w) (cwd E) thumb_path part.











End Concurrency.

Section NoSerialization.

Context (E : Env) (during : World → list string → gmap (list string) node).





End NoSerialization.


(** ** The thumbnail route and the cache *)

Lemma name_not_up c : is_name c = true → startswith "../" c = false.
Proof.
  intros (_ & _ & _ & Hs)%is_name_spec.
  destruct (startswith "../" c) eqn:Hup; [|reflexivity].
  destruct c as [|a1 [|a2 [|a3 c]]];
    cbn [startswith] in Hup; rewrite ?andb_false_r in Hup; try discriminate.
  apply andb_true_iff in Hup as [_ Hup]. apply andb_true_iff in Hup as [_ Hup].
  apply andb_true_iff in Hup as [Hup _]. apply Ascii.eqb_eq in Hup as <-.
  cbn [has_sep] in Hs. by rewrite !orb_true_r in Hs.
Qed.

(** A proper file name is its own normal form. *)
Lemma normpath_name c : is_name c = true → normpath c = c.
Proof.
  intros Hc. pose proof (name_not_absolute c Hc) as Habs.
  apply is_name_spec in Hc as (H1 & H2 & H3 & Hs).
  unfold normpath.
  rewrite (proj2 (String.eqb_neq c "")) by assumption. rewrite Habs.
  cbn [Nat.eqb negb replicate string_of_list_ascii].
  rewrite (split_sep_no_sep _ Hs). cbn [foldl]. unfold normpath_step.
  rewrite (proj2 (String.eqb_neq c "")), (proj2 (String.eqb_neq c ".")),
    (proj2 (String.eqb_neq c "..")) by assumption.
  cbn [orb negb app String.concat].
  change (EmptyString +:+ c) with c.
  by rewrite (proj2 (String.eqb_neq c "")).
Qed.

(** [safe_join] lets a proper file name through. *)
Lemma safe_join_name directory c :
  directory ≠ ""%string → is_name c = true →
  safe_join directory c = Some (os_path_join directory c).
Proof.
  intros Hd Hc. unfold safe_join.
  rewrite (proj2 (String.eqb_neq directory "")) by assumption.
  pose proof Hc as (H1 & _ & H3 & _)%is_name_spec.
  rewrite (proj2 (String.eqb_neq c "")) by assumption.
  rewrite (normpath_name _ Hc), (name_not_absolute _ Hc), (name_not_up _ Hc).
  by rewrite (proj2 (String.eqb_neq c "..")).
Qed.

(** An absolute path resolves the same from every working directory. *)
Lemma resolve_absolute fs0 c1 c2 path :
  startswith "/" path = true → resolve fs0 c1 path = resolve fs0 c2 path.
Proof. intros H. unfold resolve. by rewrite H. Qed.

Lemma safe_join_absolute directory path s :
  startswith "/" directory = true → safe_join directory path = Some s →
  startswith "/" s = true.
Proof.
  intros Hd. unfold safe_join.
  destruct directory as [|a d]; [discriminate|]. cbn [String.eqb].
  destruct (_ || _ || _)%bool eqn:Hc; [discriminate|]. intros [= <-].
  apply orb_false_iff in Hc as [Hc _]. apply orb_false_iff in Hc as [Hc _].
  unfold os_path_join. rewrite Hc. cbn [String.eqb orb].
  destruct (endswith_sep _); by apply startswith_sep_append.
Qed.

(** [serve_thumbnail] on the name [preview] hands out reads the place
    [generate_video_thumbnail] tests. *)
Lemma serve_thumbnail_name (E : Env) (file_path : string) (w : World) :
  serve_thumbnail E (hash_path file_path +:+ ".jpg") w =
    match stat (fs w) (cwd E) (thumb_path_of file_path) with
    | Some (File data) => FileStream (thumb_loc file_path) data
    | _ => Abort 404 None
    end.
Proof.
  unfold serve_thumbnail, send_from_directory.
  rewrite safe_join_name by (discriminate || apply thumb_name_is_name).
  fold (thumb_path_of file_path). unfold stat. rewrite resolve_thumb_path.
  destruct (_ && _)%bool; [|reflexivity]. unfold thumb_loc.
  destruct (fs w !! _) as [[|data]|]; reflexivity.
Qed.

(** The cache directory, seen as the root of a deployment of its own. *)
Lemma thumbnail_dir_as_root (E : Env) :
  THUMBNAIL_DIR =
    ROOT_DIR (MkEnv ["tmp"; "web_file_viewer"]%string (guess_type E) (run_process E)).
Proof. reflexivity. Qed.

(** Whatever [serve_thumbnail] streams is a regular file located under
    the cache directory. *)
Lemma serve_thumbnail_within_cache (E : Env) (w : World) filename l content :
  serve_thumbnail E filename w = FileStream l content →
  ["tmp"; "web_file_viewer"]%string `prefix_of` l ∧ fs w !! l = Some (File content).
Proof.
  set (E' := MkEnv ["tmp"; "web_file_viewer"]%string (guess_type E) (run_process E)).
  unfold serve_thumbnail, send_from_directory.
  destruct (safe_join THUMBNAIL_DIR filename) as [s|] eqn:Hs; [|done].
  unfold stat.
  destruct (resolve (fs w) (cwd E) s) as [l'|] eqn:Hr; [|done].
  destruct l' as [|c l']; [done|].
  destruct (fs w !! (c :: l')) as [[|content']|] eqn:Hst; try done.
  intros [= <- <-].
  pose proof (safe_join_absolute THUMBNAIL_DIR filename s eq_refl Hs) as Habs.
  rewrite (resolve_absolute _ _ (cwd E') _ Habs) in Hr.
  rewrite (thumbnail_dir_as_root E) in Hs. fold E' in Hs.
  apply safe_join_root in Hs as (name & -> & Hrel & Hdd).
  split; [|done].
  by apply (resolve_under_root E' (fs w) name).
Qed.

(** X1: the cache key [hash_path] computes is, for every request path, 32
    characters long and made of the digits [0-9a-f] only; the thumbnail
    file name built from it ([key + ".jpg"]) is therefore a proper file
    name: it is not empty, not [.] or [..], and contains no slash,
    whatever slashes or [..] the request path contains. *)
Theorem hash_path_hex_digest (path : string) :
  String.length (hash_path path) = 32%nat ∧
  Forall (λ c, is_hex_char c = true) (list_ascii_of_string (hash_path path)) ∧
  is_name (hash_path path +:+ ".jpg") = true.
Proof.
  destruct (hash_path_shape path) as [H1 H2].
  split; [exact H1|]. split; [exact H2|]. apply thumb_name_is_name.
Qed.

(** X2: the destination [preview] computes for the thumbnail of a request
    path, [os.path.join(THUMBNAIL_DIR, hash_path(file_path) + ".jpg")],
    can only name the entry [<key>.jpg] directly inside
    [/tmp/web_file_viewer], from every working directory; and the
    existence test of [generate_video_thumbnail] succeeds exactly when
    [/tmp] and [/tmp/web_file_viewer] are directories and that entry is
    there, be it a regular file or a directory. *)
Theorem thumbnail_cache_test (fs0 : gmap (list string) node) (cwd0 : list string)
    (file_path : string) :
  let dest := os_path_join THUMBNAIL_DIR (hash_path file_path +:+ ".jpg") in
  (∀ l, resolve fs0 cwd0 dest = Some l →
        l = ["tmp"; "web_file_viewer"; hash_path file_path +:+ ".jpg"]%string) ∧
  (os_path_exists fs0 cwd0 dest = true ↔
     fs0 !! ["tmp"%string] = Some Dir ∧
     fs0 !! ["tmp"; "web_file_viewer"]%string = Some Dir ∧
     is_Some (fs0 !! ["tmp"; "web_file_viewer"; hash_path file_path +:+ ".jpg"]%string)).
Proof.
  intros dest. subst dest. fold (thumb_path_of file_path). fold (thumb_loc file_path).
  split.
  - intros l. rewrite resolve_thumb_path.
    destruct (_ && _)%bool; [|discriminate]. by intros [= <-].
  - unfold os_path_exists, stat. rewrite resolve_thumb_path.
    cbn [is_dir_at].
    case_bool_decide as H1; cbn [andb].
    2:{ split; [discriminate|]. intros (H & _). contradiction. }
    case_bool_decide as H2; cbn [andb].
    2:{ split; [discriminate|]. intros (_ & H & _). contradiction. }
    unfold thumb_loc at 1.
    destruct (fs0 !! thumb_loc file_path) as [n|] eqn:Hn.
    + split; [|reflexivity]. intros _. split; [exact H1|]. split; [exact H2|].
      exists n. reflexivity.
    + split; [discriminate|]. intros (_ & _ & [n Hn']). discriminate.
Qed.

(** X3: the thumbnail route, asked for the file name [preview] puts in
    [thumb_url] for a request path, streams the regular file stored at
    the destination [generate_video_thumbnail] tests and [ffmpeg] is told
    to write, and answers 404 when there is no regular file there: the
    URL handed out and the cache entry are the same file. *)
Theorem serve_thumbnail_of_key (E : Env) (file_path : string) (w : World) :
  serve_thumbnail E (hash_path file_path +:+ ".jpg") w =
    match stat (fs w) (cwd E)
               (os_path_join THUMBNAIL_DIR (hash_path file_path +:+ ".jpg")) with
    | Some (File data) =>
        FileStream ["tmp"; "web_file_viewer"; hash_path file_path +:+ ".jpg"]%string data
    | _ => Abort 404 None
    end.
Proof.
  unfold serve_thumbnail, send_from_directory.
  rewrite safe_join_name by (discriminate || apply thumb_name_is_name).
  fold (thumb_path_of file_path). unfold stat. rewrite resolve_thumb_path.
  destruct (_ && _)%bool; [|reflexivity].
  destruct (fs w !! _) as [[|data]|]; reflexivity.
Qed.

(** X4: round trip through the cache. For an existing video whose
    thumbnail is not cached, where the cache directory exists and the
    tool exits 0 having written the frame at its destination, [preview]
    answers the video descriptor, and a request to the [thumb_url] of
    that descriptor, served in the world [preview] left, streams exactly
    the frame the tool wrote. *)
Theorem preview_then_serve_thumbnail (E : Env) (file_path mime frame : string)
    (w : World) :
  let abs_path := os_path_join (ROOT_DIR E) file_path in
  let thumb_filename := hash_path file_path +:+ ".jpg" in
  let thumb_path := os_path_join THUMBNAIL_DIR thumb_filename in
  file_path ≠ ""%string →
  os_path_isfile (fs w) (cwd E) abs_path = true →
  guess_type E abs_path = Some mime →
  startswith "video/" mime = true →
  os_path_isdir (fs w) (cwd E) THUMBNAIL_DIR = true →
  os_path_exists (fs w) (cwd E) thumb_path = false →
  run_process E w (ffmpeg_cmd abs_path thumb_path) =
    Exited 0 (write_file (fs w) (cwd E) thumb_path frame) →
  ∃ w', preview E (Some file_path) w =
          (Json [ ("type", JString "video");
                  ("url", JString ("/" +:+ file_path));
                  ("thumb_url", JString ("/thumbnail/" +:+ thumb_filename)) ]%string, w') ∧
        serve_thumbnail E thumb_filename w' =
          FileStream ["tmp"; "web_file_viewer"; thumb_filename]%string frame.
Proof.
  intros abs_path thumb_filename thumb_path Hne Hfile Hmime Hvid Hdir Hmiss Hrun.
  eexists. split.
  - rewrite preview_eq by done. unfold abs_path_of, thumb_path_of.
    fold abs_path thumb_filename thumb_path.
    rewrite Hfile, Hmime, (kind_of_video _ Hvid). cbn [negb].
    rewrite generate_miss by done. rewrite Hrun.
    rewrite bool_decide_eq_true_2 by reflexivity. reflexivity.
  - subst thumb_filename. rewrite serve_thumbnail_name. cbn [fs].
    unfold thumb_path_of. fold thumb_path.
    rewrite isdir_thumbnail_dir in Hdir.
    assert (Hr : resolve (fs w) (cwd E) thumb_path = Some (thumb_loc file_path)).
    { unfold thumb_path. fold (thumb_path_of file_path).
      by rewrite resolve_thumb_path, Hdir. }
    assert (Hd : is_dir_at (fs w) (thumb_loc file_path) = false).
    { unfold os_path_exists, stat in Hmiss. rewrite Hr in Hmiss.
      unfold thumb_loc in *. cbn [is_dir_at].
      destruct (fs w !! _); [discriminate|]. by apply bool_decide_eq_false_2. }
    by rewrite (write_file_stat _ _ _ _ _ _ Hr Hd).
Qed.

(** X5: a descriptor whose thumbnail is not there. For an existing video
    whose thumbnail is not cached, if the tool exits 0 and leaves no
    regular file at the destination, [preview] still answers the video
    descriptor with its [thumb_url], and a request to that [thumb_url],
    served in the world [preview] left, is answered 404. *)
Theorem preview_url_without_file (E : Env) (file_path mime : string) (w : World)
    (fs' : gmap (list string) node) :
  let abs_path := os_path_join (ROOT_DIR E) file_path in
  let thumb_filename := hash_path file_path +:+ ".jpg" in
  let thumb_path := os_path_join THUMBNAIL_DIR thumb_filename in
  file_path ≠ ""%string →
  os_path_isfile (fs w) (cwd E) abs_path = true →
  guess_type E abs_path = Some mime →
  startswith "video/" mime = true →
  os_path_exists (fs w) (cwd E) thumb_path = false →
  run_process E w (ffmpeg_cmd abs_path thumb_path) = Exited 0 fs' →
  os_path_isfile fs' (cwd E) thumb_path = false →
  ∃ w', preview E (Some file_path) w =
          (Json [ ("type", JString "video");
                  ("url", JString ("/" +:+ file_path));
                  ("thumb_url", JString ("/thumbnail/" +:+ thumb_filename)) ]%string, w') ∧
        serve_thumbnail E thumb_filename w' = Abort 404 None.
Proof.
  intros abs_path thumb_filename thumb_path Hne Hfile Hmime Hvid Hmiss Hrun Hnone.
  eexists. split.
  - rewrite preview_eq by done. unfold abs_path_of, thumb_path_of.
    fold abs_path thumb_filename thumb_path.
    rewrite Hfile, Hmime, (kind_of_video _ Hvid). cbn [negb].
    rewrite generate_miss by done. rewrite Hrun.
    rewrite bool_decide_eq_true_2 by reflexivity. reflexivity.
  - subst thumb_filename. rewrite serve_thumbnail_name. cbn [fs].
    unfold thumb_path_of. fold thumb_path.
    unfold os_path_isfile in Hnone.
    destruct (stat fs' (cwd E) thumb_path) as [[|data]|]; done.
Qed.

(** X6: the three routes that stream files stay inside their directory.
    In a store without symbolic links, with the root a canonical path:
    whatever [serve_file] or the file branch of [browse] streams is the
    content of a regular file located under the root directory, and
    whatever [serve_thumbnail] streams is the content of a regular file
    located under [/tmp/web_file_viewer], for every requested path
    ([..], absolute paths and repeated slashes included). *)
Theorem streams_stay_in_their_directory (E : Env) (w : World)
    (path : string) (l : list string) (content : string) :
  forallb is_name (cwd E) = true →
  (serve_file E path w = FileStream l content ∨
   browse E path w = FileStream l content →
   cwd E `prefix_of` l ∧ fs w !! l = Some (File content)) ∧
  (serve_thumbnail E path w = FileStream l content →
   ["tmp"; "web_file_viewer"]%string `prefix_of` l ∧ fs w !! l = Some (File content)).
Proof.
  intros Hwf. split.
  - by apply file_serving_within_root.
  - apply serve_thumbnail_within_cache.
Qed.


(** X8: the status codes of [preview], each with the exact condition
    under which it is returned. 400 exactly when the [file] parameter is
    missing or empty; 404 exactly when the joined path is not an
    existing regular file; 415 exactly when it is one and no type can be
    guessed; 500 exactly when it is one of a video type, the thumbnail
    destination does not exist, and the tool cannot be started or exits
    nonzero. [preview] aborts with no other code, and never answers with
    a file stream or a directory page. *)
Theorem preview_status_table (E : Env) (file : option string) (w : World) :
  let r := fst (preview E file w) in
  (r = Abort 400 (Some ("Missing " +:+ dquote +:+ "file" +:+ dquote +:+ " parameter")) ↔
     file = None ∨ file = Some ""%string) ∧
  (r = Abort 404 None ↔
     ∃ file_path, file = Some file_path ∧ file_path ≠ ""%string ∧
       os_path_isfile (fs w) (cwd E) (os_path_join (ROOT_DIR E) file_path) = false) ∧
  (r = Abort 415 None ↔
     ∃ file_path, file = Some file_path ∧ file_path ≠ ""%string ∧
       os_path_isfile (fs w) (cwd E) (os_path_join (ROOT_DIR E) file_path) = true ∧
       (guess_type E (os_path_join (ROOT_DIR E) file_path) = None ∨
        guess_type E (os_path_join (ROOT_DIR E) file_path) = Some ""%string)) ∧
  (r = Abort 500 (Some "Failed to generate thumbnail"%string) ↔
     ∃ file_path mime, file = Some file_path ∧ file_path ≠ ""%string ∧
       os_path_isfile (fs w) (cwd E) (os_path_join (ROOT_DIR E) file_path) = true ∧
       guess_type E (os_path_join (ROOT_DIR E) file_path) = Some mime ∧
       startswith "image/" mime = false ∧ startswith "video/" mime = true ∧
       os_path_exists (fs w) (cwd E)
         (os_path_join THUMBNAIL_DIR (hash_path file_path +:+ ".jpg")) = false ∧
       let out := run_process E w
                    (ffmpeg_cmd (os_path_join (ROOT_DIR E) file_path)
                       (os_path_join THUMBNAIL_DIR (hash_path file_path +:+ ".jpg"))) in
       (out = LaunchFailed ∨ ∃ code fs', out = Exited code fs' ∧ code ≠ 0)) ∧
  (∀ code description, r = Abort code description →
     code = 400 ∨ code = 404 ∨ code = 415 ∨ code = 500) ∧
  (∀ l content, r ≠ FileStream l content) ∧ (∀ dir, r ≠ Listing dir).
Proof.
  intros r. subst r.
  destruct file as [file_path|]; [|cbn [preview fst]; iff_cases; auto].
  destruct (String.eqb file_path "") eqn:Hp.
  { apply String.eqb_eq in Hp as ->. cbn [preview fst]. iff_cases; auto. }
  apply String.eqb_neq in Hp.
  rewrite preview_eq by done. unfold abs_path_of, thumb_path_of.
  destruct (os_path_isfile _ _ _) eqn:Hfile; cbn [negb fst].
  2:{ iff_cases; auto; try congruence. exists file_path. done. }
  destruct (guess_type E _) as [mime|] eqn:Hmime.
  2:{ cbn [kind_of fst]. iff_cases; auto; try congruence. exists file_path. auto. }
  destruct mime as [|c m].
  { cbn [kind_of fst]. iff_cases; auto; try congruence. exists file_path. auto. }
  unfold kind_of.
  destruct (startswith "image/" _) eqn:Himg.
  { cbn [fst]. unfold image_body. iff_cases; auto; congruence. }
  destruct (startswith "video/" _) eqn:Hvid.
  2:{ cbn [fst]. unfold file_body. iff_cases; auto; congruence. }
  destruct (os_path_exists (fs w) (cwd E)
              (os_path_join THUMBNAIL_DIR (hash_path file_path +:+ ".jpg"))) eqn:Hhit.
  { rewrite generate_hit by done. cbn [negb fst]. unfold video_body.
    iff_cases; auto; congruence. }
  rewrite generate_miss by done.
  destruct (run_process E w _) as [|code fs'] eqn:Hrun; cbn [negb fst].
  { iff_cases; auto; try congruence.
    exists file_path, (String c m). repeat split; auto. }
  case_bool_decide as Hc; cbn [negb fst].
  - unfold video_body. iff_cases; auto; congruence.
  - iff_cases; auto; try congruence.
    exists file_path, (String c m). repeat split; auto. rewrite Hrun. right. eauto.
Qed.

(** X9: the tool cannot be started (it is not installed). On a cache
    miss for a video the request is answered 500, the attempt is the one
    launch recorded, the file system is untouched; nothing remembers the
    failure, so the same request made again attempts the same launch
    again. *)
Theorem preview_tool_not_started (E : Env) (file_path mime : string) (w : World) :
  let abs_path := os_path_join (ROOT_DIR E) file_path in
  let thumb_path := os_path_join THUMBNAIL_DIR (hash_path file_path +:+ ".jpg") in
  let w' := MkWorld (fs w) (log w ++ [ffmpeg_cmd abs_path thumb_path]) in
  file_path ≠ ""%string →
  os_path_isfile (fs w) (cwd E) abs_path = true →
  guess_type E abs_path = Some mime →
  startswith "video/" mime = true →
  os_path_exists (fs w) (cwd E) thumb_path = false →
  run_process E w (ffmpeg_cmd abs_path thumb_path) = LaunchFailed →
  preview E (Some file_path) w =
    (Abort 500 (Some "Failed to generate thumbnail"%string), w') ∧
  launched w' (snd (preview E (Some file_path) w')) = [ffmpeg_cmd abs_path thumb_path].
Proof.
  intros abs_path thumb_path w' Hne Hfile Hmime Hvid Hmiss Hrun.
  split.
  - rewrite preview_eq by done. unfold abs_path_of, thumb_path_of.
    fold abs_path thumb_path.
    rewrite Hfile, Hmime, (kind_of_video _ Hvid). cbn [negb].
    rewrite generate_miss by done. by rewrite Hrun.
  - rewrite preview_eq by done. unfold abs_path_of, thumb_path_of.
    fold abs_path thumb_path. subst w'. cbn [fs].
    rewrite Hfile, Hmime, (kind_of_video _ Hvid). cbn [negb].
    rewrite generate_miss by done. cbn [fs log].
    destruct (run_process E (MkWorld (fs w) _) _) as [|code2 fs2]; cbn [snd].
    + apply (launched_snoc (MkWorld (fs w) _)).
    + destruct (bool_decide (code2 = 0)); apply (launched_snoc (MkWorld (fs w) _)).
Qed.

(** ** The order of the listing *)





Lemma sorted_Permutation names : sorted names ≡ₚ names.
Proof. apply merge_sort_Permutation. Qed.




(** ** The entries of a directory *)

Lemma child_name_Some l k n : child_name l k = Some n ↔ k = l ++ [n].
Proof.
  unfold child_name. split.
  - destruct (last k) as [m|]; [|done]. case_bool_decide; [|done]. by intros [= <-].
  - intros ->. rewrite last_snoc. by rewrite bool_decide_eq_true_2.
Qed.

Lemma elem_of_children fs0 l n : n ∈ children fs0 l ↔ is_Some (fs0 !! (l ++ [n])).
Proof.
  unfold children. rewrite list_elem_of_omap. split.
  - intros ([k v] & Hin & Hc). apply elem_of_map_to_list in Hin.
    apply child_name_Some in Hc. cbn [fst] in Hc. subst k. by exists v.
  - intros [v Hv]. exists (l ++ [n], v). split; [by apply elem_of_map_to_list|].
    by apply child_name_Some.
Qed.



(** ** The page *)

Lemma os_path_join_nonempty a b : a ≠ ""%string → os_path_join a b ≠ ""%string.
Proof.
  intros Ha. unfold os_path_join.
  destruct (startswith "/" b) eqn:Hb; [by destruct b|].
  destruct a as [|c a]; [done|].
  by destruct (_ || _)%bool.
Qed.

Lemma root_dir_nonempty (E : Env) : ROOT_DIR E ≠ ""%string.
Proof. done. Qed.

Lemma os_path_relpath_is_Some (E : Env) path start :
  path ≠ ""%string → is_Some (os_path_relpath E path start).
Proof.
  intros Hp. unfold os_path_relpath.
  rewrite (proj2 (String.eqb_neq path "")) by done.
  by destruct (_ ++ _).
Qed.

(** The loop body raises nothing, and keeps the name. *)
Lemma entry_of_is_Some (E : Env) (w : World) path n :
  ∃ e, entry_of E w (os_path_join (ROOT_DIR E) path) n = Some e ∧ name e = n.
Proof.
  unfold entry_of.
  destruct (os_path_relpath_is_Some E
              (os_path_join (os_path_join (ROOT_DIR E) path) n) (ROOT_DIR E))
    as [rel ->].
  { apply os_path_join_nonempty, os_path_join_nonempty, root_dir_nonempty. }
  by eexists.
Qed.

Lemma mapM_entry_of (E : Env) (w : World) path names :
  ∃ es, mapM (entry_of E w (os_path_join (ROOT_DIR E) path)) names = Some es ∧
        name <$> es = names.
Proof.
  induction names as [|n names (es & Hes & Hn)].
  - by exists [].
  - destruct (entry_of_is_Some E w path n) as (e & He & Hname).
    exists (e :: es). split.
    + apply mapM_Some. constructor; [done|]. by apply mapM_Some.
    + cbn [fmap list_fmap]. by rewrite Hname, <- Hn.
Qed.



Lemma browse_page_entry (E : Env) (path : string) (w : World) pg e :
  browse_page E path w = Some pg → e ∈ entries pg →
  entry_of E w (os_path_join (ROOT_DIR E) path) (name e) = Some e.
Proof.
  unfold browse_page. intros Hpg He.
  destruct (os_listdir _ _ _) as [names|]; [|done].
  destruct (mapM _ _) as [es|] eqn:Hes; [|done].
  injection Hpg as <-. cbn [entries] in He.
  apply mapM_Some in Hes.
  apply list_elem_of_lookup in He as [i Hi].
  destruct (Forall2_lookup_r _ _ _ _ _ Hes Hi) as (n & _ & Hn).
  assert (name e = n) as ->; [|done].
  unfold entry_of in Hn. destruct (os_path_relpath _ _ _); [|done].
  by injection Hn as <-.
Qed.

(** X11: how [browse] types an entry. [is_dir] is the result of
    [os.path.isdir] on the joined path of the entry; the type is [dir]
    exactly for directories, whatever their name; for the others it is
    [image] exactly when the guessed type starts with [image/], [video]
    exactly when it starts with [video/], and [file] exactly when no type
    is guessed or the type is of another family. *)
Theorem browse_page_entry_types (E : Env) (path : string) (w : World)
    (pg : page) (e : entry) :
  browse_page E path w = Some pg →
  e ∈ entries pg →
  let full_path := os_path_join (os_path_join (ROOT_DIR E) path) (name e) in
  let mime := guess_type E full_path in
  is_dir e = os_path_isdir (fs w) (cwd E) full_path ∧
  (type_ e = "dir"%string ↔ is_dir e = true) ∧
  (type_ e = "image"%string ↔
     is_dir e = false ∧ ∃ m, mime = Some m ∧ startswith "image/" m = true) ∧
  (type_ e = "video"%string ↔
     is_dir e = false ∧
     ∃ m, mime = Some m ∧ startswith "image/" m = false ∧ startswith "video/" m = true) ∧
  (type_ e = "file"%string ↔
     is_dir e = false ∧
     (mime = None ∨
      ∃ m, mime = Some m ∧ startswith "image/" m = false ∧ startswith "video/" m = false)).
Proof.
  intros Hpg He full_path mime.
  pose proof (browse_page_entry E path w pg e Hpg He) as Hent.
  unfold entry_of in Hent. fold full_path in Hent.
  destruct (os_path_relpath _ _ _) as [rel|]; [|done].
  fold mime in Hent. injection Hent as Hent. rewrite <- Hent. cbn [is_dir type_ name].
  clear Hent.
  split; [reflexivity|].
  assert (Hty : ∀ mime : option string,
             match mime with
             | None | Some EmptyString => "file"%string
             | Some mime =>
                 if startswith "image/" mime then "image"%string
                 else if startswith "video/" mime then "video"%string
                 else "file"%string
             end =
             match mime with
             | None => "file"%string
             | Some m =>
                 if startswith "image/" m then "image"%string
                 else if startswith "video/" m then "video"%string
                 else "file"%string
             end).
  { by intros [[|c m]|]. }
  rewrite Hty. clear Hty.
  destruct (os_path_isdir _ _ _).
  { iff_cases. }
  destruct mime as [m|]; [|iff_cases].
  destruct (startswith "image/" m) eqn:Himg.
  { iff_cases; eauto 6; congruence. }
  destruct (startswith "video/" m) eqn:Hvid; iff_cases; eauto 6; congruence.
Qed.

(** ** Clean paths *)

Lemma string_append_assoc (a b c : string) : (a +:+ b) +:+ c = a +:+ b +:+ c.
Proof.
  induction a as [|x a IH]; [reflexivity|].
  change (String x (a +:+ b) +:+ c = String x (a +:+ b +:+ c)).
  change (String x ((a +:+ b) +:+ c) = String x (a +:+ b +:+ c)). by rewrite IH.
Qed.

Lemma concat_cons2 c c' r :
  String.concat "/" (c :: c' :: r) = c +:+ "/" +:+ String.concat "/" (c' :: r).
Proof. reflexivity. Qed.

Lemma concat_app a b :
  a ≠ [] → b ≠ [] →
  String.concat "/" (a ++ b) = String.concat "/" a +:+ "/" +:+ String.concat "/" b.
Proof.
  intros Ha Hb. induction a as [|c a IH]; [done|]. clear Ha.
  destruct a as [|c2 a].
  - destruct b as [|c' r]; [done|]. reflexivity.
  - change ((c :: c2 :: a) ++ b) with (c :: c2 :: (a ++ b)).
    rewrite !concat_cons2. change (c2 :: a ++ b) with ((c2 :: a) ++ b).
    rewrite IH by done. by rewrite !string_append_assoc.
Qed.

Lemma forallb_is_name_app a b :
  forallb is_name (a ++ b) = (forallb is_name a && forallb is_name b)%bool.
Proof. apply forallb_app. Qed.

Lemma concat_not_absolute names :
  forallb is_name names = true → startswith "/" (String.concat "/" names) = false.
Proof.
  destruct names as [|c names]; [done|]. cbn [forallb].
  intros [Hc _]%andb_true_iff. pose proof (name_not_absolute c Hc) as Habs.
  destruct names as [|c' r]; [done|]. rewrite concat_cons2.
  destruct c as [|x c]; [done|]. exact Habs.
Qed.

Lemma root_dir_endswith (E : Env) :
  forallb is_name (cwd E) = true →
  endswith_sep (ROOT_DIR E) = bool_decide (cwd E = []).
Proof.
  intros Hwf. unfold ROOT_DIR. destruct (cwd E) as [|c names] eqn:Hcwd; [done|].
  rewrite bool_decide_eq_false_2 by done.
  assert (Hc : c ≠ ""%string).
  { cbn [forallb] in Hwf. apply andb_true_iff in Hwf as [Hc _].
    by apply is_name_spec in Hc as (? & _). }
  pose proof (concat_names_nonempty c names Hc) as Hne.
  rewrite endswith_sep_append by done. by apply endswith_sep_concat.
Qed.

(** [os.path.join(ROOT_DIR, p)] for a clean relative [p]. *)
Lemma join_root_clean (E : Env) names :
  forallb is_name (cwd E) = true → forallb is_name names = true → names ≠ [] →
  os_path_join (ROOT_DIR E) (String.concat "/" names) =
    "/" +:+ String.concat "/" (cwd E ++ names).
Proof.
  intros Hwf Hn Hne. unfold os_path_join.
  rewrite (concat_not_absolute _ Hn), (root_dir_endswith E Hwf).
  change (String.eqb (ROOT_DIR E) "") with false. cbn [orb].
  unfold ROOT_DIR. destruct (cwd E) as [|c cs] eqn:Hcwd.
  - by rewrite bool_decide_eq_true_2.
  - rewrite bool_decide_eq_false_2 by done.
    rewrite concat_app by done. by rewrite !string_append_assoc.
Qed.

Lemma join_root_empty (E : Env) :
  forallb is_name (cwd E) = true →
  os_path_join (ROOT_DIR E) "" =
    if bool_decide (cwd E = []) then "/"%string else ROOT_DIR E +:+ "/".
Proof.
  intros Hwf. unfold os_path_join. cbn [startswith].
  rewrite (root_dir_endswith E Hwf).
  change (String.eqb (ROOT_DIR E) "") with false. cbn [orb].
  case_bool_decide as Hc; [|done]. unfold ROOT_DIR. by rewrite Hc.
Qed.

Lemma string_append_nil_r (a : string) : a +:+ "" = a.
Proof. induction a as [|x a IH]; [done|]. change (String x (a +:+ "") = String x a). by rewrite IH. Qed.

Lemma endswith_sep_snoc a : endswith_sep (a +:+ "/") = true.
Proof. by rewrite endswith_sep_append. Qed.

(** The path the loop of [browse] examines for an entry of a clean
    directory is the one [preview] builds from the entry's relative path. *)
Lemma full_path_clean (E : Env) comps n :
  forallb is_name (cwd E) = true → forallb is_name comps = true → is_name n = true →
  os_path_join (os_path_join (ROOT_DIR E) (String.concat "/" comps)) n =
    "/" +:+ String.concat "/" (cwd E ++ comps ++ [n]).
Proof.
  intros Hwf Hc Hn. pose proof (name_not_absolute n Hn) as Habs.
  destruct comps as [|c comps].
  - change (String.concat "/" []) with ""%string. rewrite join_root_empty by done.
    cbn [app]. unfold os_path_join at 1. rewrite Habs.
    case_bool_decide as Hcwd.
    + rewrite Hcwd. reflexivity.
    + rewrite endswith_sep_snoc, orb_true_r.
      unfold ROOT_DIR. rewrite concat_app by done.
      by rewrite !string_append_assoc.
  - rewrite join_root_clean by done.
    unfold os_path_join. rewrite Habs.
    change (String.eqb ("/" +:+ _) "") with false. cbn [orb].
    assert (Hne : cwd E ++ c :: comps ≠ []) by (by destruct (cwd E)).
    assert (Hnames : forallb is_name (cwd E ++ c :: comps) = true).
    { by rewrite forallb_is_name_app, Hwf, Hc. }
    replace (endswith_sep ("/" +:+ String.concat "/" (cwd E ++ c :: comps))) with false.
    2:{ symmetry. rewrite endswith_sep_append.
        - by apply endswith_sep_concat.
        - destruct (cwd E ++ c :: comps) as [|x r] eqn:Hx; [done|].
          apply concat_names_nonempty.
          cbn [forallb] in Hnames. apply andb_true_iff in Hnames as [Hx' _].
          by apply is_name_spec in Hx' as (? & _). }
    rewrite (assoc_L (++) (cwd E)). rewrite (concat_app (cwd E ++ c :: comps) [n]) by done.
    by rewrite !string_append_assoc.
Qed.

Lemma normpath_step_names b acc names :
  forallb is_name names = true →
  foldl (normpath_step b) acc names = acc ++ names.
Proof.
  revert acc. induction names as [|c names IH]; intros acc Hn.
  - by rewrite (right_id_L [] (++)).
  - cbn [forallb] in Hn. apply andb_true_iff in Hn as [Hc Hn].
    apply is_name_spec in Hc as (H1 & H2 & H3 & _).
    cbn [foldl]. unfold normpath_step at 2.
    rewrite (proj2 (String.eqb_neq c "")), (proj2 (String.eqb_neq c ".")),
      (proj2 (String.eqb_neq c "..")) by assumption.
    cbn [orb negb]. rewrite IH by done. by rewrite <- (assoc_L (++)).
Qed.

Lemma split_sep_abs names :
  forallb is_name names = true →
  split_sep ("/" +:+ String.concat "/" names) =
    ""%string :: (if bool_decide (names = []) then [""%string] else names).
Proof.
  intros Hn. change ("/" +:+ String.concat "/" names)
    with (String sep (String.concat "/" names)).
  cbn [split_sep]. change (Ascii.eqb sep sep) with true. cbn iota.
  case_bool_decide as He; [by subst|].
  by rewrite split_sep_concat by (done || by apply forallb_is_name_has_sep).
Qed.

(** A clean absolute path is its own normal form. *)
Lemma normpath_abs_clean names :
  forallb is_name names = true →
  normpath ("/" +:+ String.concat "/" names) = "/" +:+ String.concat "/" names.
Proof.
  intros Hn. unfold normpath.
  change (String.eqb ("/" +:+ String.concat "/" names) "") with false.
  change (startswith "/" ("/" +:+ String.concat "/" names)) with true.
  cbn iota.
  replace (startswith "//" ("/" +:+ String.concat "/" names)) with false.
  2:{ symmetry. change (startswith "//" ("/" +:+ String.concat "/" names))
        with (startswith "/" (String.concat "/" names)).
      by apply concat_not_absolute. }
  cbn [andb Nat.eqb negb replicate string_of_list_ascii].
  rewrite split_sep_abs by done.
  case_bool_decide as He.
  - subst names. reflexivity.
  - cbn [foldl]. change (normpath_step true [] "") with (@nil string).
    rewrite !normpath_step_names by done. reflexivity.
Qed.


Lemma filter_names names :
  forallb is_name names = true → filter (λ x, x ≠ ""%string) names = names.
Proof.
  induction names as [|c names IH]; [done|]. cbn [forallb].
  intros [Hc Hn]%andb_true_iff. apply is_name_spec in Hc as (Hc & _).
  rewrite filter_cons_True by done. by rewrite IH.
Qed.

Lemma components_abs_clean names :
  forallb is_name names = true →
  filter (λ x, x ≠ ""%string) (split_sep ("/" +:+ String.concat "/" names)) = names.
Proof.
  intros Hn. rewrite split_sep_abs by done.
  rewrite filter_cons_False by (by intros ?).
  case_bool_decide as He.
  - subst. by rewrite filter_cons_False by (by intros ?).
  - by apply filter_names.
Qed.

Lemma commonprefix_len_app l rest : commonprefix_len l (l ++ rest) = length l.
Proof.
  induction l as [|x l IH]; [by destruct rest|].
  cbn [commonprefix_len app length]. by rewrite String.eqb_refl, IH.
Qed.

Lemma concat_nonempty names :
  forallb is_name names = true → names ≠ [] → String.concat "/" names ≠ ""%string.
Proof.
  intros Hn Hne. destruct names as [|c r]; [done|]. apply concat_names_nonempty.
  cbn [forallb] in Hn. apply andb_true_iff in Hn as [Hc _].
  by apply is_name_spec in Hc as (? & _).
Qed.

(** [join] over proper names puts one slash between them. *)
Lemma foldl_join_names names a :
  forallb is_name (names ++ [a]) = true →
  ∀ p, forallb is_name p = true →
  foldl os_path_join (String.concat "/" (names ++ [a])) p =
    String.concat "/" (names ++ a :: p).
Proof.
  intros Hn p. revert names a Hn. induction p as [|b p IH]; intros names a Hn Hp.
  - reflexivity.
  - cbn [forallb] in Hp. apply andb_true_iff in Hp as [Hb Hp].
    cbn [foldl]. 
    assert (Hne : names ++ [a] ≠ []) by (by destruct names).
    replace (os_path_join (String.concat "/" (names ++ [a])) b)
      with (String.concat "/" ((names ++ [a]) ++ [b])).
    2:{ unfold os_path_join. rewrite (name_not_absolute b Hb).
        rewrite (proj2 (String.eqb_neq _ "")) by (by apply concat_nonempty).
        rewrite endswith_sep_concat by done. cbn [orb].
        by rewrite concat_app by done. }
    rewrite IH.
    + by rewrite <- !(assoc_L (++)).
    + rewrite forallb_is_name_app, Hn. cbn [forallb]. by rewrite Hb.
    + done.
Qed.

Lemma replace_backslashes_append a b :
  replace_backslashes (a +:+ b) = replace_backslashes a +:+ replace_backslashes b.
Proof.
  induction a as [|x a IH]; [done|].
  change (String x a +:+ b) with (String x (a +:+ b)).
  cbn [replace_backslashes]. by rewrite IH.
Qed.

Lemma replace_backslashes_concat names :
  Forall (λ c, replace_backslashes c = c) names →
  replace_backslashes (String.concat "/" names) = String.concat "/" names.
Proof.
  induction 1 as [|c names Hc Hn IH]; [done|].
  destruct names as [|c' r]; [done|].
  rewrite concat_cons2, !replace_backslashes_append, Hc, IH. done.
Qed.

(** The relative path [browse] computes for an entry of a clean directory. *)
Lemma relpath_clean (E : Env) rest :
  forallb is_name (cwd E) = true → forallb is_name rest = true → rest ≠ [] →
  os_path_relpath E ("/" +:+ String.concat "/" (cwd E ++ rest)) (ROOT_DIR E) =
    Some (String.concat "/" rest).
Proof.
  intros Hwf Hr Hne. unfold os_path_relpath.
  change (String.eqb ("/" +:+ _) "") with false. cbn iota.
  unfold os_path_abspath.
  change (startswith "/" ("/" +:+ String.concat "/" (cwd E ++ rest))) with true.
  change (startswith "/" (ROOT_DIR E)) with true. cbn iota.
  assert (Hall : forallb is_name (cwd E ++ rest) = true).
  { by rewrite forallb_is_name_app, Hwf, Hr. }
  unfold ROOT_DIR.
  rewrite !normpath_abs_clean, !components_abs_clean by done.
  rewrite commonprefix_len_app, Nat.sub_diag, drop_app_length. cbn [replicate app].
  destruct rest as [|a p]; [done|].
  cbn [forallb] in Hr. apply andb_true_iff in Hr as [Ha Hp].
  f_equal. apply (foldl_join_names [] a); [|done]. cbn [app forallb]. by rewrite Ha.
Qed.

(** ** Resolving clean paths *)

Lemma walk_app fs0 cur xs ys :
  walk fs0 cur (xs ++ ys) = walk fs0 cur xs ≫= λ l, walk fs0 l ys.
Proof.
  revert cur. induction xs as [|x xs IH]; intros cur; [reflexivity|].
  cbn [app walk]. destruct (is_dir_at fs0 cur); [|reflexivity].
  destruct (_ || _)%bool; [apply IH|]. destruct (String.eqb x ".."); apply IH.
Qed.

Lemma walk_names_Some fs0 cur names l :
  forallb is_name names = true → walk fs0 cur names = Some l → l = cur ++ names.
Proof.
  intros Hn Hw. rewrite <- (right_id_L [] (++) names) in Hw.
  apply walk_names in Hw; [|done]. by injection Hw as <-.
Qed.

Lemma walk_name fs0 cur n :
  is_name n = true →
  walk fs0 cur [n] = if is_dir_at fs0 cur then Some (cur ++ [n]) else None.
Proof.
  intros (H1 & H2 & H3 & _)%is_name_spec. cbn [walk].
  by rewrite (proj2 (String.eqb_neq n "")), (proj2 (String.eqb_neq n ".")),
    (proj2 (String.eqb_neq n "..")) by assumption.
Qed.

Lemma resolve_abs_clean fs0 cwd0 names :
  forallb is_name names = true → names ≠ [] →
  resolve fs0 cwd0 ("/" +:+ String.concat "/" names) = walk fs0 [] names.
Proof.
  intros Hn Hne. unfold resolve.
  change (String.eqb ("/" +:+ _) "") with false.
  change (startswith "/" ("/" +:+ String.concat "/" names)) with true. cbn iota.
  rewrite split_sep_abs by done. rewrite bool_decide_eq_false_2 by done.
  reflexivity.
Qed.

(** Where the directory of a clean path is. *)
Lemma resolve_dir_clean (E : Env) fs0 comps l :
  forallb is_name (cwd E) = true → forallb is_name comps = true →
  resolve fs0 (cwd E) (os_path_join (ROOT_DIR E) (String.concat "/" comps)) = Some l →
  l = cwd E ++ comps ∧ walk fs0 [] (cwd E ++ comps) = Some (cwd E ++ comps).
Proof.
  intros Hwf Hc.
  assert (Hall : forallb is_name (cwd E ++ comps) = true).
  { by rewrite forallb_is_name_app, Hwf, Hc. }
  destruct comps as [|c comps].
  - change (String.concat "/" []) with ""%string. rewrite join_root_empty by done.
    rewrite (right_id_L [] (++)) in *.
    case_bool_decide as Hcwd.
    + rewrite Hcwd. cbv. by intros [= <-].
    + unfold ROOT_DIR.
      change (("/" +:+ String.concat "/" (cwd E)) +:+ "/")
        with (String sep (String.concat "/" (cwd E) +:+ "/" +:+ "")).
      unfold resolve.
      change (String.eqb (String sep (String.concat "/" (cwd E) +:+ "/" +:+ "")) "")
        with false.
      change (startswith "/" (String sep (String.concat "/" (cwd E) +:+ "/" +:+ "")))
        with true. cbn iota.
      cbn [split_sep]. change (Ascii.eqb sep sep) with true. cbn iota.
      rewrite split_sep_app_sep, split_sep_concat
        by (done || by apply forallb_is_name_has_sep).
      cbn [walk is_dir_at String.eqb orb]. rewrite walk_app.
      destruct (walk fs0 [] (cwd E)) as [l'|] eqn:Hw; [|done].
      pose proof (walk_names_Some _ _ _ _ Hwf Hw) as ->. cbn [app mbind option_bind].
      cbn [split_sep walk String.eqb orb].
      destruct (is_dir_at fs0 (cwd E)); [|done]. by intros [= <-].
  - rewrite join_root_clean by done.
    rewrite resolve_abs_clean by (done || by destruct (cwd E)).
    intros Hw. pose proof (walk_names_Some _ _ _ _ Hall Hw) as ->. done.
Qed.

(** ** The entries of a clean directory *)

Lemma browse_page_inv (E : Env) (path : string) (w : World) pg :
  browse_page E path w = Some pg →
  ∃ l, resolve (fs w) (cwd E) (os_path_join (ROOT_DIR E) path) = Some l ∧
       is_dir_at (fs w) l = true ∧
       name <$> entries pg = sorted (children (fs w) l) ∧
       page_relpath pg = path ∧ parent_path pg = os_path_dirname path.
Proof.
  unfold browse_page, os_listdir. intros Hpg.
  destruct (resolve (fs w) (cwd E) _) as [l|]; [|done].
  destruct (is_dir_at (fs w) l) eqn:Hd; [|done].
  destruct (mapM_entry_of E w path (sorted (children (fs w) l))) as (es & Hes & Hn).
  rewrite Hes in Hpg. injection Hpg as <-. by exists l.
Qed.

Lemma stat_at fs0 cwd0 path l :
  resolve fs0 cwd0 path = Some l → l ≠ [] → stat fs0 cwd0 path = fs0 !! l.
Proof. intros Hr Hl. unfold stat. rewrite Hr. by destruct l. Qed.

Lemma entry_clean (E : Env) (w : World) comps pg e :
  forallb is_name (cwd E) = true →
  forallb is_name comps = true →
  replace_backslashes (String.concat "/" comps) = String.concat "/" comps →
  browse_page E (String.concat "/" comps) w = Some pg →
  e ∈ entries pg →
  is_name (name e) = true →
  replace_backslashes (name e) = name e →
  relpath e = String.concat "/" (comps ++ [name e]) ∧
  os_path_join (ROOT_DIR E) (relpath e) =
    os_path_join (os_path_join (ROOT_DIR E) (String.concat "/" comps)) (name e) ∧
  resolve (fs w) (cwd E) (os_path_join (ROOT_DIR E) (relpath e)) =
    Some (cwd E ++ comps ++ [name e]) ∧
  stat (fs w) (cwd E) (os_path_join (ROOT_DIR E) (relpath e)) =
    fs w !! (cwd E ++ comps ++ [name e]) ∧
  is_Some (fs w !! (cwd E ++ comps ++ [name e])).
Proof.
  intros Hwf Hc Hbs Hpg He Hn Hbn.
  assert (Hrest : forallb is_name (comps ++ [name e]) = true).
  { rewrite forallb_is_name_app, Hc. cbn [forallb]. by rewrite Hn. }
  assert (Hrne : comps ++ [name e] ≠ []) by (by destruct comps).
  assert (Hall : forallb is_name (cwd E ++ comps) = true).
  { by rewrite forallb_is_name_app, Hwf, Hc. }
  pose proof (full_path_clean E comps (name e) Hwf Hc Hn) as Hfull.
  assert (Hrel : relpath e = String.concat "/" (comps ++ [name e])).
  { pose proof (browse_page_entry E _ w pg e Hpg He) as Hent.
    unfold entry_of in Hent. rewrite Hfull in Hent.
    rewrite relpath_clean in Hent by done.
    injection Hent as Hent. rewrite <- Hent. cbn [relpath name].
    destruct comps as [|c comps]; [exact Hbn|].
    rewrite (concat_app (c :: comps) [name e]) by done.
    rewrite !replace_backslashes_append, Hbs. cbn [String.concat].
    by rewrite Hbn. }
  assert (Hjoin : os_path_join (ROOT_DIR E) (relpath e) =
                  "/" +:+ String.concat "/" (cwd E ++ comps ++ [name e])).
  { rewrite Hrel. by apply join_root_clean. }
  destruct (browse_page_inv E _ w pg Hpg) as (l & Hl & Hd & Hnames & _).
  apply resolve_dir_clean in Hl as [-> Hwalk]; [|done..].
  assert (Hres : resolve (fs w) (cwd E) (os_path_join (ROOT_DIR E) (relpath e)) =
                 Some (cwd E ++ comps ++ [name e])).
  { rewrite Hjoin. rewrite resolve_abs_clean.
    - rewrite (assoc_L (++)), walk_app, Hwalk. cbn [mbind option_bind].
      rewrite walk_name by done. by rewrite Hd.
    - by rewrite forallb_is_name_app, Hwf, Hrest.
    - by destruct (cwd E). }
  split; [exact Hrel|]. split; [by rewrite Hjoin, Hfull|]. split; [exact Hres|].
  split.
  { apply stat_at; [exact Hres|]. rewrite (assoc_L (++)). by destruct (cwd E ++ comps). }
  rewrite (assoc_L (++)). apply elem_of_children.
  rewrite <- sorted_Permutation, <- Hnames. by apply list_elem_of_fmap_2.
Qed.

(** ** [dirname] of a clean path *)

Lemma upto_last_sep_no_sep n : has_sep n = false → upto_last_sep n = ""%string.
Proof. destruct n as [|c n]; [done|]. cbn [upto_last_sep]. by intros ->. Qed.

Lemma upto_last_sep_app a n :
  has_sep n = false → upto_last_sep (a +:+ "/" +:+ n) = a +:+ "/".
Proof.
  intros Hn. induction a as [|x a IH].
  - change ("" +:+ "/" +:+ n) with (String sep n). cbn [upto_last_sep has_sep].
    change (Ascii.eqb sep sep) with true. cbn [orb].
    by rewrite (upto_last_sep_no_sep _ Hn).
  - change (String x a +:+ "/" +:+ n) with (String x (a +:+ "/" +:+ n)).
    cbn [upto_last_sep]. cbn [has_sep]. rewrite has_sep_append.
    change (has_sep ("/" +:+ n)) with true. rewrite !orb_true_r. by rewrite IH.
Qed.

Lemma all_sep_snoc a :
  a ≠ ""%string → all_sep (a +:+ "/") = true → endswith_sep a = true.
Proof.
  induction a as [|x a IH]; [done|]. intros _.
  change (String x a +:+ "/") with (String x (a +:+ "/")). cbn [all_sep].
  intros [Hx Ha]%andb_true_iff. destruct a as [|y a]; [exact Hx|].
  cbn [endswith_sep]. by apply IH.
Qed.

Lemma rstrip_sep_snoc a :
  a ≠ ""%string → endswith_sep a = false → rstrip_sep (a +:+ "/") = a.
Proof.
  induction a as [|x a IH]; [done|]. intros _ He.
  destruct (all_sep (String x a +:+ "/")) eqn:Hall.
  { apply all_sep_snoc in Hall; [congruence|done]. }
  change (String x a +:+ "/") with (String x (a +:+ "/")) in *.
  cbn [rstrip_sep]. rewrite Hall. f_equal.
  destruct a as [|y a]; [reflexivity|]. by apply IH.
Qed.

Lemma dirname_clean comps n :
  forallb is_name comps = true → is_name n = true →
  os_path_dirname (String.concat "/" (comps ++ [n])) = String.concat "/" comps.
Proof.
  intros Hc Hn. pose proof Hn as (_ & _ & _ & Hs)%is_name_spec.
  unfold os_path_dirname. destruct comps as [|c comps].
  - cbn [app String.concat]. by rewrite (upto_last_sep_no_sep _ Hs).
  - rewrite (concat_app (c :: comps) [n]) by done.
    change (String.concat "/" [n]) with n.
    rewrite (upto_last_sep_app _ _ Hs).
    pose proof (concat_nonempty (c :: comps) Hc ltac:(done)) as Hne.
    pose proof (endswith_sep_concat (c :: comps) ltac:(done) Hc) as He.
    set (a := String.concat "/" (c :: comps)) in *.
    destruct (all_sep (a +:+ "/")) eqn:Hall.
    { apply all_sep_snoc in Hall; [congruence|done]. }
    replace (String.eqb (a +:+ "/") "") with false by (by destruct a).
    cbn [negb andb]. by apply rstrip_sep_snoc.
Qed.

Lemma entry_type_kind (E : Env) (w : World) abs_path n e :
  entry_of E w abs_path n = Some e →
  is_dir e = os_path_isdir (fs w) (cwd E) (os_path_join abs_path n) ∧
  (is_dir e = false →
   type_ e = match kind_of (guess_type E (os_path_join abs_path n)) with
             | Image => "image" | Video => "video" | _ => "file"
             end%string).
Proof.
  unfold entry_of. destruct (os_path_relpath _ _ _) as [rel|]; [|done].
  intros [= <-]. cbn [is_dir type_]. split; [done|]. intros ->.
  generalize (guess_type E (os_path_join abs_path n)). intros mime.
  destruct mime as [m|]; [|reflexivity]. unfold kind_of.
  destruct m as [|c m]; [reflexivity|].
  change ((if startswith "image/" (String c m) then "image"
           else if startswith "video/" (String c m) then "video" else "file")%string =
          match (if startswith "image/" (String c m) then Image
                 else if startswith "video/" (String c m) then Video else Other) with
          | Image => "image" | Video => "video" | _ => "file"
          end%string).
  destruct (startswith "image/" (String c m)); [reflexivity|].
  destruct (startswith "video/" (String c m)); reflexivity.
Qed.



(** X12: the relative path of an entry. For a clean directory path
    (proper names joined by single slashes, the empty path for the root,
    no backslash) and an entry with a proper name without backslash, in
    a store without symbolic links and with a canonical root: [relpath]
    is the directory path followed by the name; the path that [preview],
    [serve_file] and [browse] build from that [relpath] is, as a string,
    the path the listing examined; it resolves to the place of the entry,
    under the root; and [is_dir] tells whether a directory or a regular
    file is stored there. *)
Theorem browse_page_relpath (E : Env) (w : World) (comps : list string)
    (pg : page) (e : entry) :
  forallb is_name (cwd E) = true →
  forallb is_name comps = true →
  replace_backslashes (String.concat "/" comps) = String.concat "/" comps →
  browse_page E (String.concat "/" comps) w = Some pg →
  e ∈ entries pg →
  is_name (name e) = true →
  replace_backslashes (name e) = name e →
  let place := cwd E ++ comps ++ [name e] in
  relpath e = String.concat "/" (comps ++ [name e]) ∧
  os_path_join (ROOT_DIR E) (relpath e) =
    os_path_join (os_path_join (ROOT_DIR E) (String.concat "/" comps)) (name e) ∧
  resolve (fs w) (cwd E) (os_path_join (ROOT_DIR E) (relpath e)) = Some place ∧
  (is_dir e = true ↔ fs w !! place = Some Dir) ∧
  (is_dir e = false ↔ ∃ content, fs w !! place = Some (File content)).
Proof.
  intros Hwf Hc Hbs Hpg He Hn Hbn place.
  destruct (entry_clean E w comps pg e Hwf Hc Hbs Hpg He Hn Hbn)
    as (Hrel & Hjoin & Hres & Hstat & Hin).
  fold place in Hres, Hstat, Hin.
  split; [exact Hrel|]. split; [exact Hjoin|]. split; [exact Hres|].
  pose proof (browse_page_entry E _ w pg e Hpg He) as Hent.
  apply entry_type_kind in Hent as [Hd _].
  rewrite <- Hjoin in Hd. unfold os_path_isdir in Hd. rewrite Hstat in Hd.
  rewrite Hd. destruct Hin as [[|content] ->]; iff_cases. by eexists.
Qed.


(** X14: the parent of a page. [os.path.dirname] of a clean path is
    the path without its last name, and of a single name it is the empty
    path (the root page). *)
Theorem dirname_of_clean_path (comps : list string) (n : string) :
  forallb is_name comps = true → is_name n = true →
  os_path_dirname (String.concat "/" (comps ++ [n])) = String.concat "/" comps ∧
  os_path_dirname n = ""%string.
Proof.
  intros Hc Hn. split; [by apply dirname_clean|].
  by apply (dirname_clean [] n).
Qed.

(** ** Start-up *)

Lemma resolve_tmp fs0 cwd0 : resolve fs0 cwd0 "/tmp" = Some ["tmp"%string].
Proof. reflexivity. Qed.

Lemma resolve_thumbnail_dir fs0 cwd0 :
  resolve fs0 cwd0 THUMBNAIL_DIR =
    if is_dir_at fs0 ["tmp"%string] then Some ["tmp"; "web_file_viewer"]%string else None.
Proof.
  unfold resolve.
  change (String.eqb THUMBNAIL_DIR "") with false.
  change (startswith "/" THUMBNAIL_DIR) with true.
  change (split_sep THUMBNAIL_DIR) with [""; "tmp"; "web_file_viewer"]%string.
  cbn [walk is_dir_at String.eqb Ascii.eqb Bool.eqb orb andb app].
  by destruct (bool_decide (fs0 !! ["tmp"%string] = Some Dir)).
Qed.

Lemma mkdir_tmp fs0 cwd0 :
  mkdir_exist_ok fs0 cwd0 "/tmp" true =
    match fs0 !! ["tmp"%string] with
    | Some Dir => (fs0, None)
    | Some (File _) => (fs0, Some FileExistsError)
    | None => (<[["tmp"%string] := Dir]> fs0, None)
    end.
Proof.
  unfold mkdir_exist_ok, os_mkdir. change (all_sep "/tmp") with false. cbn iota.
  change (rstrip_sep "/tmp") with "/tmp"%string. rewrite resolve_tmp.
  destruct (fs0 !! ["tmp"%string]) as [n|] eqn:Htmp; [|reflexivity].
  cbn iota beta. unfold os_path_isdir, stat. rewrite resolve_tmp, Htmp.
  by destruct n.
Qed.

Lemma mkdir_thumbnail_dir fs0 cwd0 :
  mkdir_exist_ok fs0 cwd0 THUMBNAIL_DIR true =
    match fs0 !! ["tmp"%string] with
    | Some Dir =>
        match fs0 !! ["tmp"; "web_file_viewer"]%string with
        | Some Dir => (fs0, None)
        | Some (File _) => (fs0, Some FileExistsError)
        | None => (<[["tmp"; "web_file_viewer"]%string := Dir]> fs0, None)
        end
    | _ => (fs0, Some OtherOSError)
    end.
Proof.
  unfold mkdir_exist_ok, os_mkdir. change (all_sep THUMBNAIL_DIR) with false. cbn iota.
  change (rstrip_sep THUMBNAIL_DIR) with THUMBNAIL_DIR.
  rewrite resolve_thumbnail_dir. cbn [is_dir_at].
  destruct (fs0 !! ["tmp"%string]) as [[|c]|] eqn:Htmp.
  - rewrite bool_decide_eq_true_2 by done.
    destruct (fs0 !! ["tmp"; "web_file_viewer"]%string) as [n|] eqn:Hw; [|reflexivity].
    cbn iota beta. unfold os_path_isdir, stat. rewrite resolve_thumbnail_dir.
    cbn [is_dir_at]. rewrite Htmp, bool_decide_eq_true_2 by done. rewrite Hw.
    by destruct n.
  - rewrite bool_decide_eq_false_2 by done. cbn iota beta.
    unfold os_path_isdir, stat. rewrite resolve_thumbnail_dir.
    cbn [is_dir_at]. by rewrite Htmp, bool_decide_eq_false_2.
  - rewrite bool_decide_eq_false_2 by done. cbn iota beta.
    unfold os_path_isdir, stat. rewrite resolve_thumbnail_dir.
    cbn [is_dir_at]. by rewrite Htmp, bool_decide_eq_false_2.
Qed.

Lemma os_makedirs_tmp fuel fs0 cwd0 :
  os_makedirs (S fuel) fs0 cwd0 "/tmp" true = mkdir_exist_ok fs0 cwd0 "/tmp" true.
Proof. reflexivity. Qed.

Lemma os_makedirs_thumbnail_dir fuel fs0 cwd0 :
  os_makedirs (S (S fuel)) fs0 cwd0 THUMBNAIL_DIR true =
    if os_path_exists fs0 cwd0 "/tmp" then mkdir_exist_ok fs0 cwd0 THUMBNAIL_DIR true
    else match mkdir_exist_ok fs0 cwd0 "/tmp" true with
         | (fs1, Some OtherOSError) => (fs1, Some OtherOSError)
         | (fs1, _) => mkdir_exist_ok fs1 cwd0 THUMBNAIL_DIR true
         end.
Proof.
  change (os_makedirs (S (S fuel)) fs0 cwd0 THUMBNAIL_DIR true)
    with (if negb (os_path_exists fs0 cwd0 "/tmp")
          then match os_makedirs (S fuel) fs0 cwd0 "/tmp" true with
               | (fs1, Some OtherOSError) => (fs1, Some OtherOSError)
               | (fs1, _) => mkdir_exist_ok fs1 cwd0 THUMBNAIL_DIR true
               end
          else mkdir_exist_ok fs0 cwd0 THUMBNAIL_DIR true).
  rewrite os_makedirs_tmp. by destruct (os_path_exists fs0 cwd0 "/tmp").
Qed.

(** The start-up statement in closed form. *)
Lemma startup_eq (E : Env) fs0 :
  startup E fs0 =
    match fs0 !! ["tmp"%string], fs0 !! ["tmp"; "web_file_viewer"]%string with
    | Some (File _), _ | _, Some (File _) => None
    | _, _ =>
        Some (<[["tmp"; "web_file_viewer"]%string := Dir]>
                (<[["tmp"%string] := Dir]> fs0))
    end.
Proof.
  unfold startup. change (String.length THUMBNAIL_DIR) with 20%nat.
  rewrite os_makedirs_thumbnail_dir.
  unfold os_path_exists, stat. rewrite resolve_tmp.
  rewrite mkdir_tmp.
  destruct (fs0 !! ["tmp"%string]) as [[|c]|] eqn:Htmp.
  - rewrite mkdir_thumbnail_dir, Htmp.
    rewrite (insert_id fs0 ["tmp"%string] Dir) by done.
    destruct (fs0 !! ["tmp"; "web_file_viewer"]%string) as [[|c]|] eqn:Hw; [|done..].
    by rewrite insert_id.
  - rewrite mkdir_thumbnail_dir, Htmp.
    by destruct (fs0 !! ["tmp"; "web_file_viewer"]%string) as [[|?]|].
  - rewrite mkdir_thumbnail_dir, lookup_insert_eq.
    rewrite lookup_insert_ne by done.
    destruct (fs0 !! ["tmp"; "web_file_viewer"]%string) as [[|c]|] eqn:Hw; [|done..].
    rewrite (insert_id (<[_ := _]> fs0) ["tmp"; "web_file_viewer"]%string Dir); [done|].
    by rewrite lookup_insert_ne.
Qed.


(** ** What is ever launched *)

Lemma preview_log (E : Env) (file : option string) (w : World) :
  log (snd (preview E file w)) = log w ∨
  ∃ file_path,
    file = Some file_path ∧
    log (snd (preview E file w)) =
      log w ++ [ffmpeg_cmd (os_path_join (ROOT_DIR E) file_path)
                  (os_path_join THUMBNAIL_DIR (hash_path file_path +:+ ".jpg"))].
Proof.
  destruct file as [file_path|]; [|by left].
  destruct (String.eqb file_path "") eqn:Hp.
  { apply String.eqb_eq in Hp as ->. by left. }
  apply String.eqb_neq in Hp.
  rewrite preview_eq by done. unfold abs_path_of, thumb_path_of.
  destruct (negb _); [by left|].
  destruct (kind_of _); try by left.
  unfold generate_video_thumbnail, subprocess_run_checked.
  destruct (os_path_exists _ _ _); [by left|].
  right. exists file_path. split; [done|].
  destruct (run_process E w _) as [|code fs']; [done|].
  by destruct (bool_decide (code = 0)).
Qed.

Lemma startswith_join_root (E : Env) file_path :
  startswith "/" (os_path_join (ROOT_DIR E) file_path) = true.
Proof.
  unfold os_path_join. destruct (startswith "/" file_path) eqn:H; [done|].
  change (String.eqb (ROOT_DIR E) "") with false. cbn [orb].
  by destruct (endswith_sep (ROOT_DIR E)).
Qed.

Lemma preview_requests_log (E : Env) files w :
  ∃ l, log (preview_requests E files w) = log w ++ l ∧
       Forall (λ cmd, ∃ file_path,
                 Some file_path ∈ files ∧
                 cmd = ffmpeg_cmd (os_path_join (ROOT_DIR E) file_path)
                         (os_path_join THUMBNAIL_DIR (hash_path file_path +:+ ".jpg"))) l.
Proof.
  revert w. induction files as [|file files IH]; intros w.
  - exists []. split; [by rewrite (right_id_L [] (++))|constructor].
  - cbn [preview_requests foldl]. fold (preview_requests E files (snd (preview E file w))).
    destruct (IH (snd (preview E file w))) as (l & Hl & Hall).
    assert (Hall' : Forall (λ cmd, ∃ file_path,
                 Some file_path ∈ file :: files ∧
                 cmd = ffmpeg_cmd (os_path_join (ROOT_DIR E) file_path)
                         (os_path_join THUMBNAIL_DIR (hash_path file_path +:+ ".jpg"))) l).
    { eapply Forall_impl; [exact Hall|]. intros cmd (p & Hp & ->).
      exists p. split; [by right|done]. }
    destruct (preview_log E file w) as [Hlog|(p & -> & Hlog)].
    + exists l. split; [by rewrite Hl, Hlog|exact Hall'].
    + exists (ffmpeg_cmd (os_path_join (ROOT_DIR E) p)
                (os_path_join THUMBNAIL_DIR (hash_path p +:+ ".jpg")) :: l).
      split.
      * rewrite Hl, Hlog. by rewrite <- (assoc_L (++)).
      * constructor; [|exact Hall']. exists p. split; [by left|done].
Qed.

(** X19: what the server ever launches. Over any sequence of
    [preview] requests, from any state and for any behaviour of the
    tool, every command launched is the eleven-word [ffmpeg] command
    line of the source for one of the requested paths: its input is the
    joined path of that request, which always begins with a slash (so it
    is never read as an option), and its output is
    [/tmp/web_file_viewer/<key>.jpg] with the key of that request.
    Nothing else is ever run. *)
Theorem only_ffmpeg_is_launched (E : Env) (files : list (option string)) (w : World) :
  Forall (λ cmd,
            ∃ file_path video thumb,
              Some file_path ∈ files ∧
              cmd = [ "ffmpeg"; "-y"; "-i"; video;
                      "-ss"; "00:00:02"; "-vframes"; "1";
                      "-vf"; "scale=320:-1"; thumb ]%string ∧
              video = os_path_join (ROOT_DIR E) file_path ∧
              startswith "/" video = true ∧
              thumb = ("/tmp/web_file_viewer/" +:+ hash_path file_path +:+ ".jpg")%string)
         (launched w (preview_requests E files w)).
Proof.
  destruct (preview_requests_log E files w) as (l & Hl & Hall).
  unfold launched. rewrite Hl, drop_app_length.
  eapply Forall_impl; [exact Hall|]. intros cmd (p & Hp & ->).
  exists p, (os_path_join (ROOT_DIR E) p),
         ("/tmp/web_file_viewer/" +:+ hash_path p +:+ ".jpg")%string.
  split; [exact Hp|]. split.
  - unfold ffmpeg_cmd. fold (thumb_path_of p). by rewrite thumb_path_eq.
  - split; [done|]. split; [apply startswith_join_root|done].
Qed.

(** ** The cache is keyed by the request path alone *)

Lemma write_file_other fs0 cwd0 path data l k :
  resolve fs0 cwd0 path = Some l → k ≠ l →
  write_file fs0 cwd0 path data !! k = fs0 !! k.
Proof.
  intros Hr Hk. unfold write_file. rewrite Hr.
  destruct l as [|c l]; [done|].
  destruct (fs0 !! (c :: l)) as [[|?]|]; [done| |]; by rewrite lookup_insert_ne.
Qed.

Lemma write_file_stat_other fs0 cwd0 path data l file_path :
  resolve fs0 cwd0 path = Some l → l ≠ thumb_loc file_path →
  stat (write_file fs0 cwd0 path data) cwd0 (thumb_path_of file_path) =
    stat fs0 cwd0 (thumb_path_of file_path).
Proof.
  intros Hr Hl. unfold stat.
  rewrite (resolve_ext _ fs0 cwd0 _ (write_file_is_dir_at fs0 cwd0 path data)).
  rewrite resolve_thumb_path. destruct (_ && _)%bool; [|done].
  unfold thumb_loc in *. by rewrite (write_file_other _ _ _ _ l).
Qed.

(** X17: the cache key is the request path, not the content. When
    the thumbnail of a video is there and the video file is overwritten
    with other content (the video not being its own thumbnail file),
    [preview] answers the same descriptor, launches nothing and changes
    nothing, and the thumbnail route serves what it served before: the
    thumbnail of the old content. *)
Theorem preview_after_video_changed (E : Env) (file_path mime data : string)
    (w : World) (l : list string) :
  let abs_path := os_path_join (ROOT_DIR E) file_path in
  let thumb_filename := hash_path file_path +:+ ".jpg" in
  let thumb_path := os_path_join THUMBNAIL_DIR thumb_filename in
  let w' := MkWorld (write_file (fs w) (cwd E) abs_path data) (log w) in
  file_path ≠ ""%string →
  os_path_isfile (fs w) (cwd E) abs_path = true →
  guess_type E abs_path = Some mime →
  startswith "video/" mime = true →
  os_path_exists (fs w) (cwd E) thumb_path = true →
  resolve (fs w) (cwd E) abs_path = Some l →
  l ≠ ["tmp"; "web_file_viewer"; thumb_filename]%string →
  stat (fs w') (cwd E) abs_path = Some (File data) ∧
  preview E (Some file_path) w' =
    (Json [ ("type", JString "video");
            ("url", JString ("/" +:+ file_path));
            ("thumb_url", JString ("/thumbnail/" +:+ thumb_filename)) ]%string, w') ∧
  serve_thumbnail E thumb_filename w' = serve_thumbnail E thumb_filename w.
Proof.
  intros abs_path thumb_filename thumb_path w' Hne Hfile Hmime Hvid Hhit Hr Hl.
  assert (Hstat : stat (fs w') (cwd E) abs_path = Some (File data)).
  { unfold os_path_isfile, stat in Hfile. rewrite Hr in Hfile.
    destruct l as [|c l]; [done|].
    apply (write_file_stat _ _ _ _ c l Hr). cbn [is_dir_at].
    destruct (fs w !! (c :: l)) as [[|?]|]; [done| |done].
    by apply bool_decide_eq_false_2. }
  assert (Hthumb : stat (fs w') (cwd E) thumb_path = stat (fs w) (cwd E) thumb_path).
  { apply (write_file_stat_other _ _ _ _ l file_path Hr Hl). }
  split; [exact Hstat|]. split.
  - rewrite preview_eq by done. unfold abs_path_of, thumb_path_of.
    fold abs_path thumb_filename thumb_path. unfold os_path_isfile.
    rewrite Hstat. cbn [negb]. rewrite Hmime, (kind_of_video _ Hvid).
    rewrite generate_hit; [reflexivity|].
    unfold os_path_exists in *. by rewrite Hthumb.
  - subst thumb_filename. rewrite !serve_thumbnail_name.
    unfold thumb_path_of. fold thumb_path. by rewrite Hthumb.
Qed.

(** ** The model at work on the sample deployment *)

Import Sample.

(** Runs [preview] on a request that launches nothing: the two tests are
    evaluated, the world is carried along untouched. *)
Ltac eval_preview :=
  rewrite preview_eq by done;
  match goal with
  | |- context [os_path_isfile ?f ?c ?p] =>
      let b := eval vm_compute in (os_path_isfile f c p) in
      replace (os_path_isfile f c p) with b by run
  end;
  cbn [negb];
  try match goal with
      | |- context [kind_of ?m] =>
          let k := eval vm_compute in (kind_of m) in
          replace (kind_of m) with k by run
      end;
  reflexivity.

(** C1, refuted as stated: [docs/LICENSE] exists, is a regular file and has
    no guessable type, and the answer is 415, not a descriptor. *)
Lemma unknown_type_is_rejected :
  os_path_isfile (fs world0) (cwd env_ok) (os_path_join (ROOT_DIR env_ok) "docs/LICENSE") = true ∧
  guess_type env_ok (os_path_join (ROOT_DIR env_ok) "docs/LICENSE") = None ∧
  preview env_ok (Some "docs/LICENSE"%string) world0 = (Abort 415 None, world0) ∧
  ¬ ∃ body w', preview env_ok (Some "docs/LICENSE"%string) world0 = (Json body, w') ∧
               field "thumb_url" body = Some JNull.
Proof.
  assert (H : preview env_ok (Some "docs/LICENSE"%string) world0 = (Abort 415 None, world0))
    by eval_preview.
  split; [run|]. split; [run|]. split; [exact H|].
  intros (body & w' & Hp & _). rewrite H in Hp. discriminate.
Qed.

Lemma preview_unknown_or_other_witness :
  preview env_ok (Some "docs/LICENSE"%string) world0 = (Abort 415 None, world0) ∧
  preview env_ok (Some "docs/readme.txt"%string) world0 =
    (Json [ ("type", JString "file");
            ("url", JString "/docs/readme.txt");
            ("thumb_url", JNull) ]%string, world0).
Proof.
  split.
  - apply (preview_unknown_or_other env_ok "docs/LICENSE" world0); [done|run|run].
  - apply (proj2 (preview_unknown_or_other env_ok "docs/readme.txt" world0
                    ltac:(done) ltac:(run)) "text/plain"%string);
      [run|done|reflexivity|reflexivity].
Defined.

(** C2, refuted as stated: the tool starts to write and exits 1; the
    request fails with 500, the fragment stays under the key, and the same
    request is then answered from the cache without launching anything. *)
Lemma partial_output_is_cached :
  let w1 := after env_partial world0 in
  os_path_exists (fs world0) root clip_thumb = false ∧
  (∃ fs', run_process env_partial world0 clip_cmd = Exited 1 fs') ∧
  fst (preview env_partial (Some clip) world0) =
    Abort 500 (Some "Failed to generate thumbnail"%string) ∧
  stat (fs w1) root clip_thumb = Some (File "jpe") ∧
  os_path_exists (fs w1) root clip_thumb = true ∧
  fst (preview env_partial (Some clip) w1) =
    Json [ ("type", JString "video");
           ("url", JString "/videos/clip.mp4");
           ("thumb_url", JString "/thumbnail/631533dd92f8f54ea505b59d9920068e.jpg") ]%string ∧
  launched w1 (after env_partial w1) = [].
Proof.
  intros w1. split; [run|]. split; [by eexists|]. repeat split; run.
Qed.

Lemma preview_video_tool_fails_witness :
  let abs_path := os_path_join (ROOT_DIR env_fail) clip in
  let thumb_path := os_path_join THUMBNAIL_DIR (hash_path clip +:+ ".jpg") in
  let w' := MkWorld disk (log world0 ++ [ffmpeg_cmd abs_path thumb_path]) in
  preview env_fail (Some clip) world0 =
    (Abort 500 (Some "Failed to generate thumbnail"%string), w') ∧
  launched w' (snd (preview env_fail (Some clip) w')) = [ffmpeg_cmd abs_path thumb_path].
Proof.
  intros abs_path thumb_path w'.
  pose proof (preview_video_tool_fails env_fail clip "video/mp4" world0 1 disk
                ltac:(done) ltac:(run) ltac:(run) ltac:(reflexivity) ltac:(run)
                ltac:(reflexivity) ltac:(done)) as [H1 H2].
  split; [exact H1|]. apply H2; run.
Defined.

(** C3 at the failing input: [../secret.png] (and likewise the absolute
    [/srv/secret.png]) names a file outside the root; [preview] answers
    with a descriptor for it, although the location it tested is not under
    the root and the file-serving handlers refuse the same path. *)
Theorem preview_leaves_root :
  forallb is_name (cwd env_ok) = true ∧
  resolve (fs world0) (cwd env_ok) (os_path_join (ROOT_DIR env_ok) "../secret.png")
    = Some ["srv"; "secret.png"]%string ∧
  within_root env_ok world0 (os_path_join (ROOT_DIR env_ok) "../secret.png") = false ∧
  preview env_ok (Some "../secret.png"%string) world0 =
    (Json [ ("type", JString "image");
            ("url", JString "/../secret.png");
            ("thumb_url", JString "/../secret.png") ]%string, world0) ∧
  serve_file env_ok "../secret.png" world0 = Abort 404 None ∧
  browse env_ok "../secret.png" world0 = Abort 404 None ∧
  within_root env_ok world0 (os_path_join (ROOT_DIR env_ok) "/srv/secret.png") = false ∧
  preview env_ok (Some "/srv/secret.png"%string) world0 =
    (Json [ ("type", JString "image");
            ("url", JString "//srv/secret.png");
            ("thumb_url", JString "//srv/secret.png") ]%string, world0) ∧
  serve_file env_ok "/srv/secret.png" world0 = Abort 404 None.
Proof.
  split; [run|]. split; [run|]. split; [run|]. split; [eval_preview|].
  split; [run|]. split; [run|]. split; [run|]. split; [eval_preview|run].
Qed.

(** The tool cannot be started: the request fails with 500, one launch
    was attempted and the store is as before. *)
Example missing_tool_gives_500 :
  fst (preview env_missing (Some clip) world0) =
    Abort 500 (Some "Failed to generate thumbnail"%string) ∧
  launched world0 (after env_missing world0) = [clip_cmd] ∧
  os_path_exists (fs (after env_missing world0)) root clip_thumb = false.
Proof. repeat split; run. Qed.

(** The first request for the clip launches the tool once, with the
    command line of the source, and the frame is in the store afterwards. *)
Example first_request_generates :
  launched world0 (after env_ok world0) =
    [ [ "ffmpeg"; "-y"; "-i"; "/srv/www/videos/clip.mp4";
        "-ss"; "00:00:02"; "-vframes"; "1"; "-vf"; "scale=320:-1";
        "/tmp/web_file_viewer/631533dd92f8f54ea505b59d9920068e.jpg" ]%string ] ∧
  stat (fs (after env_ok world0)) root clip_thumb = Some (File "jpeg frame") ∧
  serve_thumbnail env_ok "631533dd92f8f54ea505b59d9920068e.jpg" (after env_ok world0) =
    FileStream ["tmp"; "web_file_viewer"; "631533dd92f8f54ea505b59d9920068e.jpg"]%string
               "jpeg frame".
Proof. repeat split; run. Qed.

(** The directory branch of [browse] has no containment either. *)
Example browse_lists_outside_root :
  browse env_ok ".." world0 = Listing "/srv/www/.." ∧
  resolve (fs world0) (cwd env_ok) "/srv/www/.." = Some ["srv"%string].
Proof. split; run. Qed.

(** C4, refuted as stated: the clip exists and is of a video type, and the
    tool exits 0 without writing a frame. Both calls are answered with the
    same descriptor, and the second call launches the tool again. *)
Lemma second_call_launches_again :
  let first := preview env_silent (Some clip) world0 in
  let second := preview env_silent (Some clip) (snd first) in
  os_path_isfile (fs world0) root clip_abs = true ∧
  guess_type env_silent clip_abs = Some "video/mp4"%string ∧
  fst first =
    Json [ ("type", JString "video");
           ("url", JString "/videos/clip.mp4");
           ("thumb_url", JString "/thumbnail/631533dd92f8f54ea505b59d9920068e.jpg") ]%string ∧
  fst second = fst first ∧
  launched world0 (snd first) = [clip_cmd] ∧
  launched (snd first) (snd second) = [clip_cmd] ∧
  launched (snd first) (snd second) ≠ [].
Proof. repeat split; try run. vm_compute. discriminate. Qed.

Lemma preview_video_twice_witness :
  (let first := preview env_ok (Some clip) world0 in
   let second := preview env_ok (Some clip) (snd first) in
   fst second = fst first ∧
   snd second = snd first ∧
   launched (snd first) (snd second) = []) ∧
  (let first := preview env_silent (Some clip) world0 in
   let second := preview env_silent (Some clip) (snd first) in
   fst second = fst first ∧
   launched (snd first) (snd second) =
     [ffmpeg_cmd (os_path_join (ROOT_DIR env_silent) clip)
                 (os_path_join THUMBNAIL_DIR (hash_path clip +:+ ".jpg"))]).
Proof.
  split.
  - intros first second.
    pose proof (preview_video_twice env_ok clip "video/mp4" world0
                  ltac:(done) ltac:(run) ltac:(run) ltac:(reflexivity)
                  ltac:(right; eexists; split; [reflexivity|run]))
      as (H1 & _ & H3 & _).
    destruct (H3 ltac:(run)) as (H31 & H32 & H33 & _).
    exact (conj (eq_trans H31 (eq_sym H1)) (conj H32 H33)).
  - intros first second.
    pose proof (preview_video_twice env_silent clip "video/mp4" world0
                  ltac:(done) ltac:(run) ltac:(run) ltac:(reflexivity)
                  ltac:(right; eexists; split; [reflexivity|run]))
      as (H1 & H2 & _ & H4).
    split; [|exact (H4 ltac:(run))].
    exact (eq_trans (H2 _ ltac:(run)) (eq_sym H1)).
Defined.



Lemma preview_video_witness :
  fst (preview env_ok (Some "videos/clip.mp4"%string) world0) =
    Json [ ("type", JString "video");
           ("url", JString "/videos/clip.mp4");
           ("thumb_url", JString "/thumbnail/631533dd92f8f54ea505b59d9920068e.jpg") ]%string.
Proof.
  apply (proj2 (preview_video env_ok "videos/clip.mp4" "video/mp4" world0
                  ltac:(done) ltac:(run) ltac:(run) ltac:(reflexivity) ltac:(run))
               eq_refl eq_refl).
Defined.

(** C7, refuted as stated: the clip is shorter than the seek offset, the
    tool writes no frame and exits 0; the generator reports success and
    there is no file at the destination. *)
Lemma success_without_a_file :
  let r := generate_video_thumbnail env_silent clip_abs clip_thumb world0 in
  run_process env_silent world0 clip_cmd = Exited 0 (fs world0) ∧
  fst r = true ∧
  os_path_exists (fs (snd r)) root clip_thumb = false.
Proof. split; [reflexivity|]. split; run. Qed.

Lemma preview_rejects_before_classifying_witness :
  (∃ msg, preview env_ok None world0 = (Abort 400 (Some msg), world0)) ∧
  preview env_ok (Some "missing.txt"%string) world0 = (Abort 404 None, world0) ∧
  preview env_ok (Some "docs"%string) world0 = (Abort 404 None, world0).
Proof.
  split; [|split].
  - apply (proj1 (preview_rejects_before_classifying env_ok None world0)). by left.
  - apply (proj2 (preview_rejects_before_classifying env_ok (Some "missing.txt"%string) world0)
                 "missing.txt"%string); [reflexivity|done|run].
  - apply (proj2 (preview_rejects_before_classifying env_ok (Some "docs"%string) world0)
                 "docs"%string); [reflexivity|done|run].
Defined.

Lemma preview_image_witness :
  ∃ body,
    preview env_ok (Some "pics/a.png"%string) world0 = (Json body, world0) ∧
    field "type" body = Some (JString "image") ∧
    field "url" body = Some (JString "/pics/a.png") ∧
    field "thumb_url" body = field "url" body.
Proof.
  apply (preview_image env_ok "pics/a.png" "image/png" world0);
    [done|run|run|reflexivity].
Defined.

Lemma preview_json_shape_witness :
  ∃ file_path ty thumb,
    Some "docs/readme.txt"%string = Some file_path ∧
    file_body "docs/readme.txt" =
      [ ("type", JString ty); ("url", JString ("/" +:+ file_path));
        ("thumb_url", thumb) ]%string ∧
    (ty = "image" ∨ ty = "video" ∨ ty = "file")%string.
Proof.
  apply (preview_json_shape env_ok (Some "docs/readme.txt"%string) world0 world0).
  eval_preview.
Defined.

(** The round trip on the sample deployment: the clip is previewed, and
    the URL of its thumbnail serves the frame. *)
Lemma preview_then_serve_thumbnail_witness :
  ∃ w', preview env_ok (Some clip) world0 =
          (Json [ ("type", JString "video");
                  ("url", JString ("/" +:+ clip));
                  ("thumb_url", JString ("/thumbnail/" +:+ hash_path clip +:+ ".jpg")) ]%string,
           w') ∧
        serve_thumbnail env_ok (hash_path clip +:+ ".jpg") w' =
          FileStream ["tmp"; "web_file_viewer"; hash_path clip +:+ ".jpg"]%string
                     "jpeg frame".
Proof.
  apply (preview_then_serve_thumbnail env_ok clip "video/mp4" "jpeg frame" world0);
    [done|run|run|reflexivity|run|run|reflexivity].
Defined.

(** The tool exits 0 without a frame: the descriptor is handed out and
    its thumbnail is not found. *)
Lemma preview_url_without_file_witness :
  ∃ w', preview env_silent (Some clip) world0 =
          (Json [ ("type", JString "video");
                  ("url", JString ("/" +:+ clip));
                  ("thumb_url", JString ("/thumbnail/" +:+ hash_path clip +:+ ".jpg")) ]%string,
           w') ∧
        serve_thumbnail env_silent (hash_path clip +:+ ".jpg") w' = Abort 404 None.
Proof.
  apply (preview_url_without_file env_silent clip "video/mp4" world0 disk);
    [done|run|run|reflexivity|run|reflexivity|run].
Defined.

Lemma streams_stay_in_their_directory_witness :
  serve_file env_ok "pics/../pics/a.png" world0 =
    FileStream ["srv"; "www"; "pics"; "a.png"]%string "png data" ∧
  cwd env_ok `prefix_of` ["srv"; "www"; "pics"; "a.png"]%string ∧
  fs world0 !! ["srv"; "www"; "pics"; "a.png"]%string = Some (File "png data").
Proof.
  assert (H : serve_file env_ok "pics/../pics/a.png" world0 =
              FileStream ["srv"; "www"; "pics"; "a.png"]%string "png data") by run.
  split; [exact H|].
  apply (proj1 (streams_stay_in_their_directory env_ok world0 "pics/../pics/a.png"
                  ["srv"; "www"; "pics"; "a.png"]%string "png data" ltac:(run))).
  left. exact H.
Defined.

Lemma preview_tool_not_started_witness :
  let cmd := ffmpeg_cmd (os_path_join (ROOT_DIR env_missing) clip)
               (os_path_join THUMBNAIL_DIR (hash_path clip +:+ ".jpg")) in
  let w' := MkWorld disk (log world0 ++ [cmd]) in
  preview env_missing (Some clip) world0 =
    (Abort 500 (Some "Failed to generate thumbnail"%string), w') ∧
  launched w' (snd (preview env_missing (Some clip) w')) = [cmd].
Proof.
  apply (preview_tool_not_started env_missing clip "video/mp4" world0);
    [done|run|run|reflexivity|run|reflexivity].
Defined.

(** ** The directory page on the sample deployment *)

Import Pages.

(** X15: a name with a backslash. [browse] replaces every backslash of
    the relative path by a slash; on a POSIX store a backslash is an
    ordinary character of a file name, so the entry [a\b.txt] of [docs]
    is listed with the [relpath] [docs/a/b.txt], and the link of that
    entry serves the file [b.txt] of the directory [docs/a], not the
    entry, which is served under its real name only. *)
Theorem backslash_name_links_elsewhere :
  browse_page env_ok "docs" odd_world =
    Some (MkPage [ MkEntry "LICENSE" "docs/LICENSE" false "file";
                   MkEntry "a" "docs/a" true "dir";
                   MkEntry "a\b.txt" "docs/a/b.txt" false "file";
                   MkEntry "readme.txt" "docs/readme.txt" false "file" ] "docs" "") ∧
  fs odd_world !! ["srv"; "www"; "docs"; "a\b.txt"]%string = Some (File "odd name") ∧
  serve_file env_ok "docs/a/b.txt" odd_world =
    FileStream ["srv"; "www"; "docs"; "a"; "b.txt"]%string "another file" ∧
  serve_file env_ok "docs/a\b.txt" odd_world =
    FileStream ["srv"; "www"; "docs"; "a\b.txt"]%string "odd name".
Proof. repeat split; run. Qed.

(** X16: the directory page has no containment. For the path [..]
    the joined path names the parent of the root; [browse] lists it,
    with the names and types of what lies outside the root ([relpath]
    [../secret.png], and [.] for the root itself), although the file
    routes refuse the path it hands out. *)
Theorem browse_page_outside_root :
  resolve (fs world0) (cwd env_ok) (os_path_join (ROOT_DIR env_ok) "..") =
    Some ["srv"%string] ∧
  browse env_ok ".." world0 = Listing "/srv/www/.." ∧
  browse_page env_ok ".." world0 =
    Some (MkPage [ MkEntry "secret.png" "../secret.png" false "image";
                   MkEntry "www" "." true "dir" ] ".." "") ∧
  serve_file env_ok "../secret.png" world0 = Abort 404 None ∧
  browse env_ok "../secret.png" world0 = Abort 404 None.
Proof. repeat split; run. Qed.

Lemma browse_page_entry_types_witness :
  browse_page env_ok "docs" world0 = Some docs_page ∧
  is_dir readme =
    os_path_isdir (fs world0) (cwd env_ok)
      (os_path_join (os_path_join (ROOT_DIR env_ok) "docs") (name readme)) ∧
  (type_ readme = "dir"%string ↔ is_dir readme = true).
Proof.
  assert (Hpg : browse_page env_ok "docs" world0 = Some docs_page) by run.
  split; [exact Hpg|].
  pose proof (browse_page_entry_types env_ok "docs" world0 docs_page readme Hpg
                ltac:(repeat constructor)) as (H1 & H2 & _).
  split; [exact H1|exact H2].
Defined.

Lemma browse_page_relpath_witness :
  relpath readme = "docs/readme.txt"%string ∧
  resolve (fs world0) (cwd env_ok) (os_path_join (ROOT_DIR env_ok) (relpath readme)) =
    Some ["srv"; "www"; "docs"; "readme.txt"]%string.
Proof.
  pose proof (browse_page_relpath env_ok world0 ["docs"%string] docs_page readme
                ltac:(reflexivity) ltac:(reflexivity) ltac:(reflexivity) ltac:(run)
                ltac:(repeat constructor) ltac:(reflexivity) ltac:(reflexivity))
    as (H1 & _ & H3 & _).
  split; [exact H1|exact H3].
Defined.


Lemma dirname_of_clean_path_witness :
  os_path_dirname "docs/readme.txt" = "docs"%string ∧
  os_path_dirname "readme.txt" = ""%string.
Proof.
  exact (dirname_of_clean_path ["docs"%string] "readme.txt" eq_refl eq_refl).
Defined.

(** ** Start-up and the cache on the sample deployment *)

(** X18: the cache key is the spelling of the request. The paths
    [videos/clip.mp4] and [videos//clip.mp4] name the same file and have
    different keys: after the first has been previewed, a request for
    the second is a cache miss, launches the tool again on the same
    video and stores a second thumbnail beside the first. *)
Theorem cache_key_is_the_spelling :
  let w1 := after env_ok world0 in
  let w2 := snd (preview env_ok (Some "videos//clip.mp4"%string) w1) in
  resolve (fs world0) root (os_path_join (ROOT_DIR env_ok) "videos//clip.mp4") =
    resolve (fs world0) root (os_path_join (ROOT_DIR env_ok) clip) ∧
  String.eqb (hash_path "videos//clip.mp4") (hash_path clip) = false ∧
  launched world0 w1 = [clip_cmd] ∧
  fst (preview env_ok (Some "videos//clip.mp4"%string) w1) =
    Json [ ("type", JString "video");
           ("url", JString "/videos//clip.mp4");
           ("thumb_url",
            JString ("/thumbnail/" +:+ hash_path "videos//clip.mp4" +:+ ".jpg")) ]%string ∧
  launched w1 w2 =
    [ffmpeg_cmd "/srv/www/videos//clip.mp4"
       ("/tmp/web_file_viewer/" +:+ hash_path "videos//clip.mp4" +:+ ".jpg")] ∧
  stat (fs w2) root (os_path_join THUMBNAIL_DIR (hash_path clip +:+ ".jpg")) =
    Some (File "jpeg frame") ∧
  stat (fs w2) root
       (os_path_join THUMBNAIL_DIR (hash_path "videos//clip.mp4" +:+ ".jpg")) =
    Some (File "jpeg frame").
Proof. intros w1 w2. repeat split; run. Qed.

(** The clip is replaced after its thumbnail was made. *)
Lemma preview_after_video_changed_witness :
  let w := after env_ok world0 in
  let w' := MkWorld (write_file (fs w) (cwd env_ok)
                       (os_path_join (ROOT_DIR env_ok) clip) "another film") (log w) in
  stat (fs w') (cwd env_ok) (os_path_join (ROOT_DIR env_ok) clip) =
    Some (File "another film") ∧
  serve_thumbnail env_ok (hash_path clip +:+ ".jpg") w' =
    serve_thumbnail env_ok (hash_path clip +:+ ".jpg") w.
Proof.
  intros w w'.
  pose proof (preview_after_video_changed env_ok clip "video/mp4" "another film" w
                ["srv"; "www"; "videos"; "clip.mp4"]%string
                ltac:(done) ltac:(run) ltac:(run) ltac:(reflexivity) ltac:(run)
                ltac:(run) ltac:(discriminate)) as (H1 & _ & H3).
  split; [exact H1|exact H3].
Defined.

(** Start-up on the sample store: nothing to do, the cache directory
    is made, a file is in the way. *)
Example startup_on_the_sample :
  startup env_ok disk = Some disk ∧
  startup env_ok (delete ["tmp"; "web_file_viewer"]%string disk) = Some disk ∧
  startup env_ok (<[["tmp"; "web_file_viewer"]%string := File "in the way"]> disk) = None.
Proof.
  rewrite !startup_eq. split; [|split].
  - by rewrite !insert_id.
  - rewrite lookup_delete_ne by done. rewrite lookup_delete_eq.
    rewrite (insert_id _ ["tmp"%string] Dir) by (by rewrite lookup_delete_ne).
    by rewrite insert_delete_id.
  - by rewrite lookup_insert_ne, lookup_insert_eq.
Qed.

(** X21: [hash_path] is MD5. On the seven strings of the test suite of
    RFC 1321 it gives the digests printed there, and on a path with
    letters outside ASCII it gives the digest of the UTF-8 bytes of the
    path, as [hashlib.md5(path.encode("utf-8")).hexdigest()] does. *)
Theorem hash_path_is_md5 :
  hash_path "" = "d41d8cd98f00b204e9800998ecf8427e"%string ∧
  hash_path "a" = "0cc175b9c0f1b6a831c399e269772661"%string ∧
  hash_path "abc" = "900150983cd24fb0d6963f7d28e17f72"%string ∧
  hash_path "message digest" = "f96b697d7cb7938d525a2f31aaf161d0"%string ∧
  hash_path "abcdefghijklmnopqrstuvwxyz" = "c3fcd3d76192e4007dfb496cca67e13b"%string ∧
  hash_path "ABCDEFGHIJKLMNOPQRSTUVWXYZabcdefghijklmnopqrstuvwxyz0123456789"
    = "d174ab98d277d9f5a5611c2c9f419d9f"%string ∧
  hash_path "12345678901234567890123456789012345678901234567890123456789012345678901234567890"
    = "57edf4a22be3c955ac49da2e2107b67a"%string ∧
  hash_path "vidéos/été.mp4" = "af27d7da13af1fe764405df41edddd08"%string.
Proof. repeat split; run. Qed.
